(** * snail-mcp: the Excel reading pipeline ([mcp/excel/read.py]) and its
      tool facade ([mcp/server.py]), embedded in Rocq.

    Python values are modelled as follows.
    - [str] is [string]; a character is an [ascii], read as a code point
      below 256, with Python's case folding and whitespace on that range.
    - [int] is [Z].
    - A value typed [Any] (a raw cell value, a font size) is a [PyVal].
    - A [dict] is an association list in insertion order, because
      [json.dumps] and the loops of [read_excel] observe that order.
    - A call that can raise returns a [result].
    - A field declared [str] that can hold something else at run time (a
      colour taken from the workbook) has the declared type in the
      functions as they are declared and the type of what it can hold in
      the pipeline that runs them. *)

From Stdlib Require Import ZArith String Ascii List Bool Lia DecimalString Sorted.
Import ListNotations.

Local Open Scope string_scope.
Local Open Scope list_scope.
Local Open Scope Z_scope.

(* ================================================================== *)
(** ** Python primitives used by the program *)
(* ================================================================== *)

Module Py.

(** Exceptions the modelled calls can raise. *)
Inductive exn : Type :=
| ValueError (msg : string)
| KeyError (key : string)
| AttributeError (attr : string)
| TypeError (msg : string)
| LoadError (path : string).

Inductive result (A : Type) : Type :=
| Ok (a : A)
| Raise (e : exn).
Arguments Ok {A} a.
Arguments Raise {A} e.

Definition bind {A B : Type} (m : result A) (k : A -> result B) : result B :=
  match m with
  | Ok a => k a
  | Raise e => Raise e
  end.

(** A loop that calls [f] on each element in turn and stops at the first
    fault. *)
Section MapResult.

Context {A B : Type} (f : A -> result B).

Fixpoint map_result (l : list A) : result (list B) :=
  match l with
  | [] => Ok []
  | x :: l' => bind (f x) (fun y => bind (map_result l') (fun ys => Ok (y :: ys)))
  end.

End MapResult.

(** A value of type [Any].  A float is kept as the text [str] and [repr]
    give for it together with whether it is non-zero: the program only
    prints floats and tests their truth value. *)
Inductive PyVal : Type :=
| PyNone
| PyStr (s : string)
| PyBool (b : bool)
| PyInt (n : Z)
| PyFloat (repr : string) (nonzero : bool).

Definition TAB : ascii := "009"%char.
Definition LF : ascii := "010"%char.
Definition CR : ascii := "013"%char.
Definition BACKSLASH : ascii := "\"%char.

(** [str(n)] for an int. *)
Definition str_int (n : Z) : string := NilZero.string_of_int (Z.to_int n).

(** [str(v)]. *)
Definition str (v : PyVal) : string :=
  match v with
  | PyNone => "None"
  | PyStr s => s
  | PyBool true => "True"
  | PyBool false => "False"
  | PyInt n => str_int n
  | PyFloat r _ => r
  end.

(** [bool(v)], the truth value [if v], [v or d] and [not v] test. *)
Definition truthy (v : PyVal) : bool :=
  match v with
  | PyNone => false
  | PyStr s => negb (s =? "")%string
  | PyBool b => b
  | PyInt n => negb (n =? 0)
  | PyFloat _ nz => nz
  end.

(** [s or d] for a [str] [s]. *)
Definition str_or (s d : string) : string :=
  if (s =? "")%string then d else s.

(** [o or d] where [o] is a [str] or [None]. *)
Definition opt_str_or (o : option string) (d : string) : string :=
  match o with
  | Some s => str_or s d
  | None => d
  end.

(** [o or d] where [o] is an [int] or [None]. *)
Definition opt_int_or (o : option Z) (d : Z) : Z :=
  match o with
  | Some n => if n =? 0 then d else n
  | None => d
  end.

(** [s.replace(old, new)] for a one-character [old]. *)
Fixpoint replace (old : ascii) (new : string) (s : string) : string :=
  match s with
  | EmptyString => EmptyString
  | String c s' =>
      if Ascii.eqb c old then (new ++ replace old new s')%string
      else String c (replace old new s')
  end.

(** [c.lower()]: the capitals A..Z and, above 127, the capitals 192..222
    other than the multiplication sign 215 move up by 32. *)
Definition lower_char (c : ascii) : ascii :=
  let n := N_of_ascii c in
  if ((65 <=? n)%N && (n <=? 90)%N)
     || ((192 <=? n)%N && (n <=? 222)%N && negb (n =? 215)%N)
  then ascii_of_N (n + 32)
  else c.

(** [s.lower()]. *)
Fixpoint lower (s : string) : string :=
  match s with
  | EmptyString => EmptyString
  | String c s' => String (lower_char c) (lower s')
  end.

(** [c in s] for a one-character [c]. *)
Fixpoint contains (c : ascii) (s : string) : bool :=
  match s with
  | EmptyString => false
  | String c' s' => Ascii.eqb c' c || contains c s'
  end.

(** [s[:1]]. *)
Definition first1 (s : string) : string :=
  match s with
  | EmptyString => EmptyString
  | String c _ => String c EmptyString
  end.

(** [s.startswith(p)] for a one-character [p]. *)
Definition startswith (p : ascii) (s : string) : bool :=
  match s with
  | EmptyString => false
  | String c _ => Ascii.eqb c p
  end.

(** [c.isspace()]: tab, line feed, vertical tab, form feed, carriage
    return, the four separators 28..31, the space, the next-line control 133
    and the no-break space 160. *)
Definition isspace (c : ascii) : bool :=
  let n := N_of_ascii c in
  ((9 <=? n)%N && (n <=? 13)%N) || ((28 <=? n)%N && (n <=? 32)%N)
  || (n =? 133)%N || (n =? 160)%N.

Fixpoint lstrip (s : string) : string :=
  match s with
  | EmptyString => EmptyString
  | String c s' => if isspace c then lstrip s' else s
  end.

Fixpoint rstrip (s : string) : string :=
  match s with
  | EmptyString => EmptyString
  | String c s' =>
      match rstrip s' with
      | EmptyString => if isspace c then EmptyString else String c EmptyString
      | r => String c r
      end
  end.

(** [s.strip()]. *)
Definition strip (s : string) : string := rstrip (lstrip s).

(** [s.split(sep)] for a one-character [sep]: empty pieces are kept and
    the empty string splits into one empty piece. *)
Fixpoint split (sep : ascii) (s : string) : list string :=
  match s with
  | EmptyString => [EmptyString]
  | String c s' =>
      if Ascii.eqb c sep then EmptyString :: split sep s'
      else match split sep s' with
           | [] => [String c EmptyString]
           | piece :: pieces => String c piece :: pieces
           end
  end.

(** [sep.join(parts)]. *)
Definition join (sep : string) (parts : list string) : string :=
  String.concat sep parts.

(** [range(lo, hi)]. *)
Definition range (lo hi : Z) : list Z :=
  map (fun i => lo + Z.of_nat i) (seq 0 (Z.to_nat (hi - lo))).

(** A [dict] with [str] keys, in insertion order. *)
Definition dict (V : Type) : Type := list (string * V).

(** [d.get(k)]: [Some] exactly when [k in d], and then the value [d[k]]. *)
Fixpoint dict_get {V : Type} (k : string) (d : dict V) : option V :=
  match d with
  | [] => None
  | (k', v) :: d' => if (k' =? k)%string then Some v else dict_get k d'
  end.

(** [d[k] = v]: an existing key keeps its place and takes the new value, a
    new key goes last. *)
Fixpoint dict_set {V : Type} (k : string) (v : V) (d : dict V) : dict V :=
  match d with
  | [] => [(k, v)]
  | (k', v') :: d' =>
      if (k' =? k)%string then (k', v) :: d' else (k', v') :: dict_set k v d'
  end.

Definition keys {V : Type} (d : dict V) : list string := map fst d.

End Py.

Import Py.

Notation "x <- m ;; k" := (bind m (fun x => k))
  (at level 61, m at next level, right associativity).

(* ================================================================== *)
(** ** [json.dumps(obj, ensure_ascii=False)] *)
(* ================================================================== *)

Module Json.

Local Open Scope string_scope.
#[local] Set Warnings "-register-all".

Inductive json : Type :=
| JNull
| JBool (b : bool)
| JInt (n : Z)
| JFloat (repr : string)
| JStr (s : string)
| JOpaque (type_name : string)
| JArr (items : list json)
| JObj (members : list (string * json)).

(** How a value typed [Any] is serialized. *)
Definition of_pyval (v : PyVal) : json :=
  match v with
  | PyNone => JNull
  | PyStr s => JStr s
  | PyBool b => JBool b
  | PyInt n => JInt n
  | PyFloat r _ => JFloat r
  end.

Definition hex_digit (n : N) : ascii :=
  if (n <? 10)%N then ascii_of_N (48 + n) else ascii_of_N (87 + n).

(** One character of a string literal: quote, backslash and the control
    characters are escaped, everything else is copied. *)
Definition encode_char (c : ascii) : string :=
  let n := N_of_ascii c in
  if (n =? 34)%N then "\" ++ String c EmptyString
  else if (n =? 92)%N then "\\"
  else if (n =? 8)%N then "\b"
  else if (n =? 12)%N then "\f"
  else if (n =? 10)%N then "\n"
  else if (n =? 13)%N then "\r"
  else if (n =? 9)%N then "\t"
  else if (n <? 32)%N then
    "\u00" ++ String (hex_digit (n / 16)) (String (hex_digit (n mod 16)) EmptyString)
  else String c EmptyString.

Fixpoint encode_chars (s : string) : string :=
  match s with
  | EmptyString => EmptyString
  | String c s' => encode_char c ++ encode_chars s'
  end.

Definition QUOTE : string := String (ascii_of_N 34) EmptyString.

Definition encode_string (s : string) : string :=
  QUOTE ++ encode_chars s ++ QUOTE.

(** A float is written as its [repr], except that the three values that
    are no numbers have names of their own. *)
Definition encode_float (r : string) : string :=
  if (r =? "nan")%string then "NaN"
  else if (r =? "inf")%string then "Infinity"
  else if (r =? "-inf")%string then "-Infinity"
  else r.

(** An object of a type the encoder does not know stops the call. *)
Fixpoint dumps (j : json) : result string :=
  match j with
  | JNull => Ok "null"
  | JBool true => Ok "true"
  | JBool false => Ok "false"
  | JInt n => Ok (str_int n)
  | JFloat r => Ok (encode_float r)
  | JStr s => Ok (encode_string s)
  | JOpaque type_name =>
      Raise (TypeError ("Object of type " ++ type_name ++ " is not JSON serializable"))
  | JArr items =>
      bind (map_result dumps items) (fun texts => Ok ("[" ++ join ", " texts ++ "]"))
  | JObj members =>
      bind (map_result
              (fun kv => bind (dumps (snd kv))
                              (fun text => Ok (encode_string (fst kv) ++ ": " ++ text)))
              members)
           (fun texts => Ok ("{" ++ join ", " texts ++ "}"))
  end.

End Json.

Import Json.

(* ================================================================== *)
(** ** The workbook objects [openpyxl] hands to the program *)
(* ================================================================== *)

Module Xl.

(** What [color.rgb] yields.  A colour given by a theme or by an index never
    sets the attribute, and reading it then yields the descriptor object of
    the class, which is no string. *)
Inductive Rgb : Type :=
| NoRgb
| RgbStr (s : string)
| RgbDescriptor.

Record Color : Type := { rgb : Rgb }.

Record Font : Type := {
  bold : bool;
  name : option string;
  size : PyVal;
  color : option Color
}.

(** A pattern fill has a foreground colour; a gradient fill has no
    [fgColor] attribute at all. *)
Inductive Fill : Type :=
| PatternFill (fgColor : option Color)
| GradientFill.

Record Cell : Type := {
  value : PyVal;
  font : option Font;
  fill : option Fill
}.

(** A worksheet: its used range and its grid.  Rows and columns are
    numbered from 1, so a reported bound is never negative.  [ws.cell] on a
    coordinate that holds nothing yields a cell whose value is [None]; such
    a cell lies inside the range being scanned, so the bounds a later
    [_sheet_range] reads on a side left to the sheet are the same, and the
    worksheet is modelled as a value. *)
Record Worksheet : Type := {
  min_row : option N;
  max_row : option N;
  min_column : option N;
  max_column : option N;
  grid : Z -> Z -> Cell
}.

(** [ws.cell(row=row, column=column)]. *)
Definition cell (ws : Worksheet) (row column : Z) : result Cell :=
  if (row <? 1) || (column <? 1)
  then Raise (ValueError "Row or column values must be at least 1")
  else Ok (grid ws row column).

(** What [wb[name]] can be: a worksheet, or a chart sheet, which has a
    title and neither a used range nor cells. *)
Inductive Sheet : Type :=
| Grid (ws : Worksheet)
| Chart.

Record Workbook : Type := { worksheets : list (string * Sheet) }.

(** [wb.sheetnames]: the titles of all sheets, chart sheets included. *)
Definition sheetnames (wb : Workbook) : list string :=
  map fst (worksheets wb).

(** [wb[name]]: the first sheet with that title. *)
Definition getitem (wb : Workbook) (name : string) : result Sheet :=
  match dict_get name (worksheets wb) with
  | Some sheet => Ok sheet
  | None => Raise (KeyError name)
  end.

End Xl.

(* ================================================================== *)
(** ** [mcp/excel/read.py] *)
(* ================================================================== *)

Module Read.

Definition DEFAULT_OUT : string := "vbf".
Definition DEFAULT_FMT : string := "j".

(** The tuple [_CellData], with the type [C] of what its two colour fields
    hold left open. *)
Record _CellDataOf (C : Type) : Type := {
  row : Z;
  col : Z;
  value : string;
  is_formula : bool;
  bold : bool;
  font_name : option string;
  font_size : PyVal;
  font_color : C;
  fill_color : C
}.
Arguments row {C} _.
Arguments col {C} _.
Arguments value {C} _.
Arguments is_formula {C} _.
Arguments bold {C} _.
Arguments font_name {C} _.
Arguments font_size {C} _.
Arguments font_color {C} _.
Arguments fill_color {C} _.

(** [_CellData] as it is declared: the colour fields are [str]. *)
Definition _CellData : Type := _CellDataOf string.

(** What a colour field holds at run time: a string, or the descriptor
    object [color.rgb] yields for a theme or indexed colour. *)
Inductive ColorVal : Type :=
| ColorStr (s : string)
| ColorDescriptor.

(** [getattr(color, "rgb", None) or ""]: the descriptor object is truthy
    and passes through. *)
Definition rgb_or_empty (clr : Xl.Color) : ColorVal :=
  match Xl.rgb clr with
  | Xl.NoRgb => ColorStr ""
  | Xl.RgbStr s => ColorStr (str_or s "")
  | Xl.RgbDescriptor => ColorDescriptor
  end.

Definition _font_color (cell : Xl.Cell) : ColorVal :=
  match Xl.font cell with
  | None => ColorStr ""
  | Some fnt =>
      match Xl.color fnt with
      | None => ColorStr ""
      | Some clr => rgb_or_empty clr
      end
  end.

(** [cell.fill.fgColor] raises on a gradient fill. *)
Definition _fill_color (cell : Xl.Cell) : result ColorVal :=
  match Xl.fill cell with
  | None => Ok (ColorStr "")
  | Some Xl.GradientFill => Raise (AttributeError "fgColor")
  | Some (Xl.PatternFill None) => Ok (ColorStr "")
  | Some (Xl.PatternFill (Some clr)) => Ok (rgb_or_empty clr)
  end.

Definition _cell_value_str (cell : Xl.Cell) : string :=
  match Xl.value cell with
  | PyNone => ""
  | PyStr s => s
  | v => str v
  end.

Definition _esc (s : string) : string :=
  if (s =? "")%string then s
  else replace LF "\n" (replace CR "\r" (replace TAB "\t" (replace BACKSLASH "\\" s))).

(** The dict [_parse_out] returns, one field per key, in the order of the
    dict literal. *)
Record Fields : Type := {
  fv : bool;
  fb : bool;
  fn : bool;
  fz : bool;
  fc : bool;
  fg : bool;
  ff : bool
}.

Definition _parse_out (out : string) : Fields :=
  let o := lower (str_or out DEFAULT_OUT) in
  {| fv := contains "v" o;
     fb := contains "b" o;
     fn := contains "n" o;
     fz := contains "z" o;
     fc := contains "c" o;
     fg := contains "g" o;
     ff := contains "f" o |}.

Definition _is_blank (val : PyVal) : bool :=
  match val with
  | PyNone => true
  | PyStr s => (strip s =? "")%string
  | _ => false
  end.

(** [ws.min_row or 1] and its three siblings. *)
Definition natural (bound : option N) : Z :=
  opt_int_or (option_map Z.of_N bound) 1.

Definition _sheet_range (ws : Xl.Worksheet) (row_start row_end col_start col_end : Z)
  : Z * Z * Z * Z :=
  let r1 := if row_start >? 0 then row_start else natural (Xl.min_row ws) in
  let r2 := if row_end >? 0 then row_end else natural (Xl.max_row ws) in
  let c1 := if col_start >? 0 then col_start else natural (Xl.min_column ws) in
  let c2 := if col_end >? 0 then col_end else natural (Xl.max_column ws) in
  (r1, r2, c1, c2).

(** The record [_collect_cells] builds for the cell at [(row, col)], once
    [_fill_color(cell)], the last argument it evaluates and the only one
    that can raise, has returned [fill]. *)
Definition make_cell (row col : Z) (cell : Xl.Cell) (fill : ColorVal)
  : _CellDataOf ColorVal :=
  let val := Xl.value cell in
  {| row := row;
     col := col;
     value := _cell_value_str cell;
     is_formula := match val with PyStr s => startswith "=" s | _ => false end;
     bold := match Xl.font cell with Some fnt => Xl.bold fnt | None => false end;
     font_name := match Xl.font cell with Some fnt => Xl.name fnt | None => Some "" end;
     font_size := match Xl.font cell with Some fnt => Xl.size fnt | None => PyNone end;
     font_color := _font_color cell;
     fill_color := fill |}.

(** The inner loop of [_collect_cells], over the columns of one row;
    [cells] is the list built so far. *)
Fixpoint _collect_cells_cols (ws : Xl.Worksheet) (row : Z) (cols : list Z)
    (sparse : bool) (cells : list (_CellDataOf ColorVal))
  : result (list (_CellDataOf ColorVal)) :=
  match cols with
  | [] => Ok cells
  | col :: cols' =>
      cell <- Xl.cell ws row col ;;
      let val := Xl.value cell in
      if sparse && _is_blank val
      then _collect_cells_cols ws row cols' sparse cells
      else
        fill <- _fill_color cell ;;
        _collect_cells_cols ws row cols' sparse (cells ++ [make_cell row col cell fill])
  end.

(** The outer loop of [_collect_cells], over the rows. *)
Fixpoint _collect_cells_rows (ws : Xl.Worksheet) (rows cols : list Z)
    (sparse : bool) (cells : list (_CellDataOf ColorVal))
  : result (list (_CellDataOf ColorVal)) :=
  match rows with
  | [] => Ok cells
  | row :: rows' =>
      cells' <- _collect_cells_cols ws row cols sparse cells ;;
      _collect_cells_rows ws rows' cols sparse cells'
  end.

Definition _collect_cells (ws : Xl.Worksheet) (r1 r2 c1 c2 : Z) (sparse : bool)
  : result (list (_CellDataOf ColorVal)) :=
  _collect_cells_rows ws (range r1 (r2 + 1)) (range c1 (c2 + 1)) sparse [].

Definition _cell_to_json (cell : _CellData) (fields : Fields) : dict json :=
  let obj := [("row", JInt (row cell)); ("col", JInt (col cell))] in
  let obj := if fv fields then dict_set "value" (JStr (value cell)) obj else obj in
  let obj := if ff fields && is_formula cell
             then dict_set "formula" (JBool true) obj else obj in
  let obj := if fb fields then dict_set "bold" (JBool (bold cell)) obj else obj in
  let obj := if fn fields
             then dict_set "font_name" (JStr (opt_str_or (font_name cell) "")) obj
             else obj in
  let obj := if fz fields
             then dict_set "font_size" (of_pyval (font_size cell)) obj else obj in
  let obj := if fc fields
             then dict_set "font_color" (JStr (font_color cell)) obj else obj in
  let obj := if fg fields
             then dict_set "fill_color" (JStr (fill_color cell)) obj else obj in
  obj.

Definition _cell_to_text_parts (cell : _CellData) (fields : Fields) : list string :=
  let parts := ["c"; str_int (row cell); str_int (col cell)] in
  let parts := if fv fields then parts ++ [_esc (value cell)] else parts in
  let parts := if ff fields
               then parts ++ [if is_formula cell then "1" else "0"] else parts in
  let parts := if fb fields
               then parts ++ [if bold cell then "1" else "0"] else parts in
  let parts := if fn fields
               then parts ++ [_esc (opt_str_or (font_name cell) "")] else parts in
  let parts := if fz fields
               then parts ++ [if truthy (font_size cell) then str (font_size cell) else ""]
               else parts in
  let parts := if fc fields then parts ++ [_esc (font_color cell)] else parts in
  let parts := if fg fields then parts ++ [_esc (fill_color cell)] else parts in
  parts.

(** The same functions on the values they meet when [read_excel] runs: a
    record whose colour fields hold what [_font_color] and [_fill_color]
    returned, and a sheet that may be a chart sheet. *)
Module Dyn.

(** [json.dumps] knows a string and does not know the descriptor object,
    whose class is [RGB]. *)
Definition color_json (v : ColorVal) : json :=
  match v with
  | ColorStr s => JStr s
  | ColorDescriptor => JOpaque "RGB"
  end.

(** [_esc] on a colour field: the descriptor object is truthy and has no
    [replace]. *)
Definition _esc (v : ColorVal) : result string :=
  match v with
  | ColorStr s => Ok (Read._esc s)
  | ColorDescriptor => Raise (AttributeError "replace")
  end.

Definition _cell_to_json (cell : _CellDataOf ColorVal) (fields : Fields) : dict json :=
  let obj := [("row", JInt (row cell)); ("col", JInt (col cell))] in
  let obj := if fv fields then dict_set "value" (JStr (value cell)) obj else obj in
  let obj := if ff fields && is_formula cell
             then dict_set "formula" (JBool true) obj else obj in
  let obj := if fb fields then dict_set "bold" (JBool (bold cell)) obj else obj in
  let obj := if fn fields
             then dict_set "font_name" (JStr (opt_str_or (font_name cell) "")) obj
             else obj in
  let obj := if fz fields
             then dict_set "font_size" (of_pyval (font_size cell)) obj else obj in
  let obj := if fc fields
             then dict_set "font_color" (color_json (font_color cell)) obj else obj in
  let obj := if fg fields
             then dict_set "fill_color" (color_json (fill_color cell)) obj else obj in
  obj.

Definition _cell_to_text_parts (cell : _CellDataOf ColorVal) (fields : Fields)
  : result (list string) :=
  let parts := ["c"; str_int (row cell); str_int (col cell)] in
  let parts := if fv fields then parts ++ [Read._esc (value cell)] else parts in
  let parts := if ff fields
               then parts ++ [if is_formula cell then "1" else "0"] else parts in
  let parts := if fb fields
               then parts ++ [if bold cell then "1" else "0"] else parts in
  let parts := if fn fields
               then parts ++ [Read._esc (opt_str_or (font_name cell) "")] else parts in
  let parts := if fz fields
               then parts ++ [if truthy (font_size cell) then str (font_size cell) else ""]
               else parts in
  parts <- (if fc fields
            then token <- _esc (font_color cell) ;; Ok (parts ++ [token])
            else Ok parts) ;;
  parts <- (if fg fields
            then token <- _esc (fill_color cell) ;; Ok (parts ++ [token])
            else Ok parts) ;;
  Ok parts.

(** [_sheet_range] on whatever [wb[name]] is: on a chart sheet the first
    bound left to the sheet reads an attribute that is not there. *)
Definition _sheet_range (sheet : Xl.Sheet) (row_start row_end col_start col_end : Z)
  : result (Z * Z * Z * Z) :=
  match sheet with
  | Xl.Grid ws => Ok (Read._sheet_range ws row_start row_end col_start col_end)
  | Xl.Chart =>
      if negb (row_start >? 0) then Raise (AttributeError "min_row")
      else if negb (row_end >? 0) then Raise (AttributeError "max_row")
      else if negb (col_start >? 0) then Raise (AttributeError "min_column")
      else if negb (col_end >? 0) then Raise (AttributeError "max_column")
      else Ok (row_start, row_end, col_start, col_end)
  end.

(** [_collect_cells] on whatever [wb[name]] is: on a chart sheet the first
    coordinate calls a [cell] method that is not there. *)
Definition _collect_cells (sheet : Xl.Sheet) (r1 r2 c1 c2 : Z) (sparse : bool)
  : result (list (_CellDataOf ColorVal)) :=
  match sheet with
  | Xl.Grid ws => Read._collect_cells ws r1 r2 c1 c2 sparse
  | Xl.Chart =>
      match range r1 (r2 + 1), range c1 (c2 + 1) with
      | _ :: _, _ :: _ => Raise (AttributeError "cell")
      | _, _ => Ok []
      end
  end.

End Dyn.

(** [[s.strip() for s in sheets.split(",") if s.strip()]]. *)
Definition parse_sheets (sheets : string) : list string :=
  flat_map (fun s => if (strip s =? "")%string then [] else [strip s])
           (split "," sheets).

(** [sheet_names or wb.sheetnames]. *)
Definition sheet_names_or (sheet_names : list string) (wb : Xl.Workbook) : list string :=
  match sheet_names with
  | [] => Xl.sheetnames wb
  | _ => sheet_names
  end.

(** The first loop of [read_excel]: fills [cells_by_sheet]. *)
Fixpoint read_excel_collect (wb : Xl.Workbook) (sheet_names : list string)
    (row_start row_end col_start col_end : Z) (sparse : bool)
    (cells_by_sheet : dict (list (_CellDataOf ColorVal)))
  : result (dict (list (_CellDataOf ColorVal))) :=
  match sheet_names with
  | [] => Ok cells_by_sheet
  | name :: rest =>
      if negb (existsb (String.eqb name) (Xl.sheetnames wb))
      then read_excel_collect wb rest row_start row_end col_start col_end sparse
             cells_by_sheet
      else
        ws <- Xl.getitem wb name ;;
        bounds <- Dyn._sheet_range ws row_start row_end col_start col_end ;;
        let '(r1, r2, c1, c2) := bounds in
        if (r2 <? r1) || (c2 <? c1)
        then read_excel_collect wb rest row_start row_end col_start col_end sparse
               cells_by_sheet
        else
          cells <- Dyn._collect_cells ws r1 r2 c1 c2 sparse ;;
          read_excel_collect wb rest row_start row_end col_start col_end sparse
            (dict_set name cells cells_by_sheet)
  end.

(** The value stored under a sheet name in the structured document. *)
Definition sheet_json (cells : list (_CellDataOf ColorVal)) (fields : Fields) : json :=
  JObj [("cells", JArr (map (fun c => JObj (Dyn._cell_to_json c fields)) cells))].

(** The loop of the [fmt_char == "j"] branch: fills [result]. *)
Fixpoint read_excel_json (sheet_names : list string)
    (cells_by_sheet : dict (list (_CellDataOf ColorVal))) (fields : Fields)
    (result : dict json) : dict json :=
  match sheet_names with
  | [] => result
  | name :: rest =>
      match dict_get name cells_by_sheet with
      | Some cells =>
          read_excel_json rest cells_by_sheet fields
            (dict_set name (sheet_json cells fields) result)
      | None => read_excel_json rest cells_by_sheet fields result
      end
  end.

(** The line of one cell in the text branch. *)
Definition cell_line (cell : _CellDataOf ColorVal) (fields : Fields) : result string :=
  parts <- Dyn._cell_to_text_parts cell fields ;;
  Ok (join (String TAB "") parts).

(** The lines one sheet adds in the text branch: its header, then the line
    of each cell up to the first that raises. *)
Definition sheet_lines (name : string) (cells : list (_CellDataOf ColorVal))
    (fields : Fields) : result (list string) :=
  lines <- map_result (fun cell => cell_line cell fields) cells ;;
  Ok ((">" ++ _esc name)%string :: lines).

(** The loop of the text branch: fills [lines]. *)
Fixpoint read_excel_text (sheet_names : list string)
    (cells_by_sheet : dict (list (_CellDataOf ColorVal))) (fields : Fields)
    (lines : list string) : result (list string) :=
  match sheet_names with
  | [] => Ok lines
  | name :: rest =>
      match dict_get name cells_by_sheet with
      | None => read_excel_text rest cells_by_sheet fields lines
      | Some cells =>
          block <- sheet_lines name cells fields ;;
          read_excel_text rest cells_by_sheet fields (lines ++ block)
      end
  end.

(** [read_excel] once the workbook is loaded.  The [wb.close()] of the
    [finally] clause releases the file and leaves the result as it is. *)
Definition read_workbook (wb : Xl.Workbook) (out fmt sheets : string)
    (row_start row_end col_start col_end : Z) (sparse : bool) : result string :=
  let fields := _parse_out out in
  let fmt_char := first1 (lower (str_or fmt DEFAULT_FMT)) in
  let sheet_names := parse_sheets sheets in
  let sheet_names := sheet_names_or sheet_names wb in
  cells_by_sheet <-
    read_excel_collect wb sheet_names row_start row_end col_start col_end sparse [] ;;
  if (fmt_char =? "j")%string
  then dumps (JObj (read_excel_json sheet_names cells_by_sheet fields []))
  else
    lines <- read_excel_text sheet_names cells_by_sheet fields [] ;;
    Ok (join (String LF "") lines).

(** What the file system offers: whether [Path(p).exists()], the text
    [str(Path(p))], and [openpyxl.load_workbook]. *)
Record Env : Type := {
  path_exists : string -> bool;
  path_str : string -> string;
  load_workbook : string -> result Xl.Workbook
}.

Definition read_excel (env : Env) (path out fmt sheets : string)
    (row_start row_end col_start col_end : Z) (sparse : bool) : result string :=
  wb <- load_workbook env path ;;
  read_workbook wb out fmt sheets row_start row_end col_start col_end sparse.

End Read.

(* ================================================================== *)
(** ** [mcp/server.py] *)
(* ================================================================== *)

Module Server.

Definition read_excel (env : Read.Env) (filepath out fmt sheets : string)
    (row_start row_end col_start col_end : Z) (sparse : bool) : result string :=
  if negb (Read.path_exists env filepath)
  then Ok ("error: file not found: " ++ filepath)%string
  else Read.read_excel env (Read.path_str env filepath) out fmt sheets
         row_start row_end col_start col_end sparse.

End Server.

Import Read.

(* ================================================================== *)
(** ** A sample workbook *)
(* ================================================================== *)

Module Sample.

Definition plain : Xl.Font :=
  {| Xl.bold := false; Xl.name := Some "Calibri"; Xl.size := PyFloat "11.0" true;
     Xl.color := None |}.

Definition heavy : Xl.Font :=
  {| Xl.bold := true; Xl.name := Some "Calibri"; Xl.size := PyFloat "11.0" true;
     Xl.color := Some {| Xl.rgb := Xl.RgbStr "FF000000" |} |}.

(** A font whose colour comes from the theme. *)
Definition themed : Xl.Font :=
  {| Xl.bold := false; Xl.name := Some "Calibri"; Xl.size := PyFloat "11.0" true;
     Xl.color := Some {| Xl.rgb := Xl.RgbDescriptor |} |}.

Definition mk (v : PyVal) (f : Xl.Font) : Xl.Cell :=
  {| Xl.value := v; Xl.font := Some f; Xl.fill := None |}.

(** Rows 1-2, columns 1-2: a bold "Name", "Age", "Amy" and the number 30. *)
Definition people : Xl.Worksheet :=
  {| Xl.min_row := Some 1%N; Xl.max_row := Some 2%N;
     Xl.min_column := Some 1%N; Xl.max_column := Some 2%N;
     Xl.grid := fun r c =>
       if (r =? 1) && (c =? 1) then mk (PyStr "Name") heavy
       else if (r =? 1) && (c =? 2) then mk (PyStr "Age") plain
       else if (r =? 2) && (c =? 1) then mk (PyStr "Amy") plain
       else if (r =? 2) && (c =? 2) then mk (PyInt 30) plain
       else mk PyNone plain |}.

(** Rows 1-2, column 1-3: a zero, a [False], blanks and a formula. *)
Definition mixed : Xl.Worksheet :=
  {| Xl.min_row := Some 1%N; Xl.max_row := Some 2%N;
     Xl.min_column := Some 1%N; Xl.max_column := Some 3%N;
     Xl.grid := fun r c =>
       if (r =? 1) && (c =? 1) then mk (PyInt 0) plain
       else if (r =? 1) && (c =? 2) then mk (PyStr "  ") plain
       else if (r =? 1) && (c =? 3) then mk (PyBool false) plain
       else if (r =? 2) && (c =? 2) then mk (PyStr "=A1+1") plain
       else mk PyNone plain |}.

(** A sheet on which every cell is blank. *)
Definition blank : Xl.Worksheet :=
  {| Xl.min_row := None; Xl.max_row := None;
     Xl.min_column := None; Xl.max_column := None;
     Xl.grid := fun _ _ => {| Xl.value := PyNone; Xl.font := None; Xl.fill := None |} |}.

(** Rows 1-2, columns 1-2: a value on a red pattern fill and an empty cell
    with a gradient fill, then a value on a gradient fill. *)
Definition shaded : Xl.Worksheet :=
  {| Xl.min_row := Some 1%N; Xl.max_row := Some 2%N;
     Xl.min_column := Some 1%N; Xl.max_column := Some 2%N;
     Xl.grid := fun r c =>
       if (r =? 1) && (c =? 1)
       then {| Xl.value := PyStr "x"; Xl.font := Some plain;
               Xl.fill := Some (Xl.PatternFill (Some {| Xl.rgb := Xl.RgbStr "FFFF0000" |})) |}
       else if (r =? 1) && (c =? 2)
       then {| Xl.value := PyNone; Xl.font := Some plain;
               Xl.fill := Some Xl.GradientFill |}
       else if (r =? 2) && (c =? 1)
       then {| Xl.value := PyStr "y"; Xl.font := Some plain;
               Xl.fill := Some Xl.GradientFill |}
       else mk PyNone plain |}.

(** One cell, a title in a theme colour. *)
Definition titled : Xl.Worksheet :=
  {| Xl.min_row := Some 1%N; Xl.max_row := Some 1%N;
     Xl.min_column := Some 1%N; Xl.max_column := Some 1%N;
     Xl.grid := fun r c =>
       if (r =? 1) && (c =? 1) then mk (PyStr "Title") themed else mk PyNone plain |}.

Definition book : Xl.Workbook :=
  {| Xl.worksheets :=
       [("Sheet1", Xl.Grid people); ("Mixed", Xl.Grid mixed); ("Blank", Xl.Grid blank)] |}.

(** A workbook with the styles and the sheet kind that make the program
    raise. *)
Definition styled : Xl.Workbook :=
  {| Xl.worksheets :=
       [("Shaded", Xl.Grid shaded); ("Titled", Xl.Grid titled); ("Blank", Xl.Grid blank);
        ("Figures", Xl.Chart)] |}.

(** A file system holding [book] at one path. *)
Definition env : Env :=
  {| path_exists := fun p => (p =? "/data/book.xlsx")%string;
     path_str := fun p => p;
     load_workbook := fun p =>
       if (p =? "/data/book.xlsx")%string then Ok book else Raise (LoadError p) |}.

(** The record extraction builds for the "Age" cell of [people], at its
    declared type. *)
Definition age : _CellData :=
  {| row := 1; col := 2; value := "Age"; is_formula := false; bold := false;
     font_name := Some "Calibri"; font_size := PyFloat "11.0" true;
     font_color := ""; fill_color := "" |}.

(** A cell whose font reports the size 0.0. *)
Definition zero_sized : _CellData :=
  {| row := 1; col := 1; value := "x"; is_formula := false; bold := false;
     font_name := Some "Calibri"; font_size := PyFloat "0.0" false;
     font_color := ""; fill_color := "" |}.

Definition only_z : Fields :=
  {| fv := false; fb := false; fn := false; fz := true;
     fc := false; fg := false; ff := false |}.

End Sample.

(* ================================================================== *)
(** ** Definitions used to state the properties *)
(* ================================================================== *)

(** The four substitutions of [_esc], in the order the source applies
    them. *)
Definition four_passes (s : string) : string :=
  replace LF "\n" (replace CR "\r" (replace TAB "\t" (replace BACKSLASH "\\" s))).

(** What [_esc] writes for one character. *)
Definition esc_char (c : ascii) : string :=
  if Ascii.eqb c BACKSLASH then "\\"
  else if Ascii.eqb c TAB then "\t"
  else if Ascii.eqb c CR then "\r"
  else if Ascii.eqb c LF then "\n"
  else String c "".

(** A single left-to-right pass that escapes each character on its own. *)
Fixpoint esc_chars (s : string) : string :=
  match s with
  | EmptyString => EmptyString
  | String c s' => (esc_char c ++ esc_chars s')%string
  end.

(** The character a backslash followed by [d] stands for. *)
Definition unesc_char (d : ascii) : ascii :=
  if Ascii.eqb d "t" then TAB
  else if Ascii.eqb d "r" then CR
  else if Ascii.eqb d "n" then LF
  else d.

(** The reader paired with [_esc]: a backslash and the character after it
    are read as one character. *)
Fixpoint unescape (s : string) : string :=
  match s with
  | EmptyString => EmptyString
  | String c s' =>
      if Ascii.eqb c BACKSLASH then
        match s' with
        | EmptyString => String c EmptyString
        | String d s'' => String (unesc_char d) (unescape s'')
        end
      else String c (unescape s')
  end.

(** Whether [fmt] is empty or starts with the letter j, in either case. *)
Definition starts_with_j (fmt : string) : bool :=
  match fmt with
  | EmptyString => true
  | String c _ => Ascii.eqb c "j" || Ascii.eqb c "J"
  end.

(** Whether [fmt] starts with the letter t, in either case. *)
Definition starts_with_t (fmt : string) : bool :=
  match fmt with
  | EmptyString => false
  | String c _ => Ascii.eqb c "t" || Ascii.eqb c "T"
  end.

(** The sheet names a call iterates over. *)
Definition requested_names (wb : Xl.Workbook) (sheets : string) : list string :=
  sheet_names_or (parse_sheets sheets) wb.

(** The structured document of a call, before [json.dumps]. *)
Definition structured_document (wb : Xl.Workbook) (out sheets : string)
    (row_start row_end col_start col_end : Z) (sparse : bool) : result (dict json) :=
  let names := requested_names wb sheets in
  cells_by_sheet <-
    read_excel_collect wb names row_start row_end col_start col_end sparse [] ;;
  Ok (read_excel_json names cells_by_sheet (_parse_out out) []).

(** The lines of the delimited text of a call, before they are joined. *)
Definition text_lines (wb : Xl.Workbook) (out sheets : string)
    (row_start row_end col_start col_end : Z) (sparse : bool) : result (list string) :=
  let names := requested_names wb sheets in
  cells_by_sheet <-
    read_excel_collect wb names row_start row_end col_start col_end sparse [] ;;
  read_excel_text names cells_by_sheet (_parse_out out) [].

(** The structured encoding and the delimited-text encoding of a call. *)
Definition structured_encoding (wb : Xl.Workbook) (out sheets : string)
    (row_start row_end col_start col_end : Z) (sparse : bool) : result string :=
  doc <- structured_document wb out sheets row_start row_end col_start col_end sparse ;;
  dumps (JObj doc).

Definition text_encoding (wb : Xl.Workbook) (out sheets : string)
    (row_start row_end col_start col_end : Z) (sparse : bool) : result string :=
  lines <- text_lines wb out sheets row_start row_end col_start col_end sparse ;;
  Ok (join (String LF "") lines).

(** A letter [_parse_out] looks for, in either case. *)
Definition recognized (c : ascii) : bool := contains (lower_char c) "vbfnzcg".

(** No character of [out] is a recognized letter. *)
Fixpoint no_recognized (out : string) : bool :=
  match out with
  | EmptyString => true
  | String c out' => negb (recognized c) && no_recognized out'
  end.

Definition no_fields : Fields :=
  {| fv := false; fb := false; fn := false; fz := false;
     fc := false; fg := false; ff := false |}.

(** The keys of a structured projection other than [row] and [col]. *)
Definition json_field_keys (cell : _CellData) (fields : Fields) : list string :=
  filter (fun k => negb ((k =? "row")%string || (k =? "col")%string))
         (keys (_cell_to_json cell fields)).

(** The tokens of a text rendering after ["c"], the row and the column. *)
Definition text_field_tokens (cell : _CellData) (fields : Fields) : list string :=
  skipn 3 (_cell_to_text_parts cell fields).

(** The field each of those tokens renders, by its structured key. *)
Definition text_field_keys (fields : Fields) : list string :=
  (if fv fields then ["value"] else [])
  ++ (if ff fields then ["formula"] else [])
  ++ (if fb fields then ["bold"] else [])
  ++ (if fn fields then ["font_name"] else [])
  ++ (if fz fields then ["font_size"] else [])
  ++ (if fc fields then ["font_color"] else [])
  ++ (if fg fields then ["fill_color"] else []).

(** The token the text rendering writes for a field. *)
Definition text_token (cell : _CellData) (key : string) : string :=
  if (key =? "value")%string then _esc (value cell)
  else if (key =? "formula")%string then (if is_formula cell then "1" else "0")
  else if (key =? "bold")%string then (if bold cell then "1" else "0")
  else if (key =? "font_name")%string then _esc (opt_str_or (font_name cell) "")
  else if (key =? "font_size")%string
       then (if truthy (font_size cell) then str (font_size cell) else "")
  else if (key =? "font_color")%string then _esc (font_color cell)
  else _esc (fill_color cell).

(** The coordinates of a range, row by row. *)
Definition coords (r1 r2 c1 c2 : Z) : list (Z * Z) :=
  flat_map (fun r => map (fun c => (r, c)) (range c1 (c2 + 1))) (range r1 (r2 + 1)).

(** Row-major order on coordinates. *)
Definition row_major (p q : Z * Z) : Prop :=
  fst p < fst q \/ (fst p = fst q /\ snd p < snd q).

(** Every character of the string is whitespace (so also the empty
    string). *)
Fixpoint all_space (s : string) : bool :=
  match s with
  | EmptyString => true
  | String c s' => isspace c && all_space s'
  end.

(** A raw value sparse extraction keeps: not [None] and not a string that
    is empty or all whitespace. *)
Definition non_blank (v : PyVal) : bool :=
  match v with
  | PyNone => false
  | PyStr s => negb (all_space s)
  | _ => true
  end.

(** Whether extraction emits the coordinate. *)
Definition emitted (ws : Xl.Worksheet) (sparse : bool) (rc : Z * Z) : bool :=
  negb sparse || non_blank (Xl.value (Xl.grid ws (fst rc) (snd rc))).

Definition coord {C : Type} (cell : _CellDataOf C) : Z * Z := (row cell, col cell).

(** How one bound is resolved: the override when positive, else the bound
    the sheet reports, else 1 (a sheet reports no bound as [None] or as 0,
    rows and columns being numbered from 1). *)
Definition resolves (override : Z) (reported : option N) (bound : Z) : Prop :=
  (0 < override -> bound = override)
  /\ (override <= 0 ->
      forall n : N, reported = Some n -> n <> 0%N -> bound = Z.of_N n)
  /\ (override <= 0 -> reported = None \/ reported = Some 0%N -> bound = 1).

Definition inverted (bounds : Z * Z * Z * Z) : bool :=
  let '(r1, r2, c1, c2) := bounds in (r2 <? r1) || (c2 <? c1).

(** What one round of the first loop of [read_excel] does with a name:
    it raises, or skips the name, or stores the cells of its sheet. *)
Definition visit (wb : Xl.Workbook) (row_start row_end col_start col_end : Z)
    (sparse : bool) (name : string) : result (option (list (_CellDataOf ColorVal))) :=
  match dict_get name (Xl.worksheets wb) with
  | None => Ok None
  | Some sheet =>
      bounds <- Dyn._sheet_range sheet row_start row_end col_start col_end ;;
      if inverted bounds then Ok None
      else
        let '(r1, r2, c1, c2) := bounds in
        cells <- Dyn._collect_cells sheet r1 r2 c1 c2 sparse ;;
        Ok (Some cells)
  end.

(** Every round of the first loop over these names returns. *)
Definition rounds_return (wb : Xl.Workbook) (row_start row_end col_start col_end : Z)
    (sparse : bool) (names : list string) : Prop :=
  forall name, In name names ->
    exists found, visit wb row_start row_end col_start col_end sparse name = Ok found.

(** A requested name passes the two guards of the first loop: the workbook
    has a sheet of that name and resolving its range does not give an
    inverted one. *)
Definition contributes (wb : Xl.Workbook) (row_start row_end col_start col_end : Z)
    (name : string) : bool :=
  match dict_get name (Xl.worksheets wb) with
  | Some sheet =>
      match Dyn._sheet_range sheet row_start row_end col_start col_end with
      | Ok bounds => negb (inverted bounds)
      | Raise _ => true
      end
  | None => false
  end.

(** Adding a name to the names seen so far. *)
Definition add_name (seen : list string) (name : string) : list string :=
  if existsb (String.eqb name) seen then seen else seen ++ [name].

(** The names of a list in the order of their first occurrence. *)
Definition first_occurrences (names : list string) : list string :=
  fold_left add_name names [].

(** A loop that stores [val name] under each name for which there is
    one. *)
Definition set_each {V : Type} (val : string -> option V) (names : list string)
    (d : dict V) : dict V :=
  fold_left (fun d name => match val name with
                           | Some v => dict_set name v d
                           | None => d
                           end)
            names d.

Definition is_some {V : Type} (o : option V) : bool :=
  match o with
  | Some _ => true
  | None => false
  end.

(** What the first loop of [read_excel] stores for a name, when the round
    for that name does not raise. *)
Definition collected (wb : Xl.Workbook) (row_start row_end col_start col_end : Z)
    (sparse : bool) (name : string) : option (list (_CellDataOf ColorVal)) :=
  match visit wb row_start row_end col_start col_end sparse name with
  | Ok stored => stored
  | Raise _ => None
  end.

(** The cells extracted from the sheet of that name, if it is stored. *)
Definition sheet_cells (wb : Xl.Workbook) (row_start row_end col_start col_end : Z)
    (sparse : bool) (name : string) : list (_CellDataOf ColorVal) :=
  match collected wb row_start row_end col_start col_end sparse name with
  | Some cells => cells
  | None => []
  end.

Definition header (name : string) : string := (">" ++ _esc name)%string.

Definition count (x : string) (l : list string) : nat := count_occ string_dec l x.

(** What extraction does at a coordinate it emits: it raises on a gradient
    fill and builds the record otherwise. *)
Definition cell_at (ws : Xl.Worksheet) (rc : Z * Z)
  : result (_CellDataOf ColorVal) :=
  fill <- _fill_color (Xl.grid ws (fst rc) (snd rc)) ;;
  Ok (make_cell (fst rc) (snd rc) (Xl.grid ws (fst rc) (snd rc)) fill).

(** The fill of the cell is a gradient fill. *)
Definition gradient (cell : Xl.Cell) : bool :=
  match Xl.fill cell with
  | Some Xl.GradientFill => true
  | _ => false
  end.

(** The fill colour of a cell whose fill is no gradient. *)
Definition fill_value (cell : Xl.Cell) : ColorVal :=
  match _fill_color cell with
  | Ok v => v
  | Raise _ => ColorStr ""
  end.

(** The record of the cell at a coordinate, for a cell whose fill is no
    gradient. *)
Definition record_at (ws : Xl.Worksheet) (rc : Z * Z) : _CellDataOf ColorVal :=
  make_cell (fst rc) (snd rc) (Xl.grid ws (fst rc) (snd rc))
            (fill_value (Xl.grid ws (fst rc) (snd rc))).

Definition is_str (v : ColorVal) : bool :=
  match v with
  | ColorStr _ => true
  | ColorDescriptor => false
  end.

(** The string a colour field holds, if it holds one. *)
Definition str_of (v : ColorVal) : string :=
  match v with
  | ColorStr s => s
  | ColorDescriptor => ""
  end.

(** A record of the pipeline at the declared type. *)
Definition declared (cell : _CellDataOf ColorVal) : _CellData :=
  {| row := row cell; col := col cell; value := value cell;
     is_formula := is_formula cell; bold := bold cell;
     font_name := font_name cell; font_size := font_size cell;
     font_color := str_of (font_color cell);
     fill_color := str_of (fill_color cell) |}.

(** Every colour field the call selects holds a string. *)
Definition printable (fields : Fields) (cell : _CellDataOf ColorVal) : bool :=
  (negb (fc fields) || is_str (font_color cell))
  && (negb (fg fields) || is_str (fill_color cell)).


(** A value [json.dumps] writes without looking inside it. *)
Definition atomic (v : json) : bool :=
  match v with
  | JArr _ | JObj _ | JOpaque _ => false
  | _ => true
  end.


(** The text of a cell line, for a cell whose line can be written. *)
Definition line_text (fields : Fields) (cell : _CellDataOf ColorVal) : string :=
  match cell_line cell fields with
  | Ok line => line
  | Raise _ => ""
  end.

(** The raw value at a coordinate of the sheet. *)
Definition raw_value (ws : Xl.Worksheet) (rc : Z * Z) : PyVal :=
  Xl.value (Xl.grid ws (fst rc) (snd rc)).

(** The header line and the cell lines the sheet of that name adds to the
    text. *)
Definition sheet_block (wb : Xl.Workbook) (row_start row_end col_start col_end : Z)
    (sparse : bool) (fields : Fields) (name : string) : list string :=
  header name
    :: map (line_text fields)
           (sheet_cells wb row_start row_end col_start col_end sparse name).

(** *** The command line of [mcp/excel/read.py] *)

(** What a run of [_main] leaves behind: the text printed on the standard
    output, or the text printed on the error stream and the exit status. *)
Inductive Run : Type :=
| Printed (stdout : string)
| Exited (stderr : string) (status : Z).

Definition USAGE : string :=
  ("usage: read_excel <path> [out=vbf] [fmt=t|j]" ++ String LF
   "out: v=value b=bold n=font_name z=font_size c=font_color g=fill f=formula. range: 0=used. sparse=0|1.")%string.

(** [sys.argv[i] if len(sys.argv) > i else d]. *)
Definition argv_or (argv : list string) (i : nat) (d : string) : string :=
  if (i <? length argv)%nat then nth i argv "" else d.

(** [_main]; [print] ends what it writes with a line feed. *)
Definition _main (env : Env) (argv : list string) : result Run :=
  let path := strip (argv_or argv 1 "") in
  let out := strip (argv_or argv 2 DEFAULT_OUT) in
  let fmt := strip (argv_or argv 3 DEFAULT_FMT) in
  if (path =? "")%string || negb (path_exists env path)
  then Ok (Exited (USAGE ++ String LF "") 1)
  else
    text <- Read.read_excel env path out fmt "" 0 0 0 0 true ;;
    Ok (Printed (text ++ String LF "")).

(** All tokens of the text rendering of a cell. *)
Definition text_tokens (cell : _CellData) (fields : Fields) : list string :=
  "c" :: str_int (row cell) :: str_int (col cell)
      :: map (text_token cell) (text_field_keys fields).

(* ================================================================== *)
(** ** Escaping *)
(* ================================================================== *)

Section Escaping.

Lemma append_assoc (a b c : string) : ((a ++ b) ++ c = a ++ (b ++ c))%string.
Proof. induction a as [|x a IH]; simpl; [reflexivity|now rewrite IH]. Qed.

Lemma append_nil_r (a : string) : (a ++ "")%string = a.
Proof. induction a as [|x a IH]; simpl; [reflexivity|now rewrite IH]. Qed.

Lemma replace_app (old : ascii) (new a b : string) :
  replace old new (a ++ b) = (replace old new a ++ replace old new b)%string.
Proof.
  induction a as [|c a IH]; simpl; [reflexivity|].
  destruct (Ascii.eqb c old); rewrite IH.
  - now rewrite append_assoc.
  - reflexivity.
Qed.

Lemma four_passes_cons (c : ascii) (s : string) :
  four_passes (String c s) = (esc_char c ++ four_passes s)%string.
Proof.
  unfold four_passes, esc_char.
  cbn [replace].
  destruct (Ascii.eqb_spec c BACKSLASH) as [->|Hb]; [reflexivity|].
  cbn [replace].
  destruct (Ascii.eqb_spec c TAB) as [->|Ht]; [reflexivity|].
  cbn [replace].
  destruct (Ascii.eqb_spec c CR) as [->|Hr]; [reflexivity|].
  cbn [replace].
  destruct (Ascii.eqb_spec c LF) as [->|Hn]; reflexivity.
Qed.

Lemma four_passes_chars (s : string) : four_passes s = esc_chars s.
Proof.
  induction s as [|c s IH]; [reflexivity|].
  now rewrite four_passes_cons, IH.
Qed.

Lemma _esc_four_passes (s : string) : _esc s = four_passes s.
Proof.
  unfold _esc. destruct (String.eqb_spec s "") as [->|_]; reflexivity.
Qed.

Lemma _esc_chars (s : string) : _esc s = esc_chars s.
Proof. now rewrite _esc_four_passes, four_passes_chars. Qed.

Lemma contains_app (c : ascii) (a b : string) :
  contains c (a ++ b) = contains c a || contains c b.
Proof.
  induction a as [|x a IH]; simpl; [reflexivity|].
  now rewrite IH, orb_assoc.
Qed.

Lemma esc_char_clean (x c : ascii) :
  x = TAB \/ x = CR \/ x = LF -> contains x (esc_char c) = false.
Proof.
  intros Hx. unfold esc_char.
  destruct (Ascii.eqb_spec c BACKSLASH) as [->|Hb];
    [destruct Hx as [->|[->| ->]]; reflexivity|].
  destruct (Ascii.eqb_spec c TAB) as [->|Ht];
    [destruct Hx as [->|[->| ->]]; reflexivity|].
  destruct (Ascii.eqb_spec c CR) as [->|Hr];
    [destruct Hx as [->|[->| ->]]; reflexivity|].
  destruct (Ascii.eqb_spec c LF) as [->|Hn];
    [destruct Hx as [->|[->| ->]]; reflexivity|].
  simpl. rewrite orb_false_r.
  destruct (Ascii.eqb_spec c x) as [->|]; [|reflexivity].
  destruct Hx as [->|[->| ->]]; congruence.
Qed.

Lemma esc_chars_clean (x : ascii) (s : string) :
  x = TAB \/ x = CR \/ x = LF -> contains x (esc_chars s) = false.
Proof.
  intros Hx. induction s as [|c s IH]; [reflexivity|].
  simpl. now rewrite contains_app, esc_char_clean, IH.
Qed.

Lemma unescape_esc_char (c : ascii) (t : string) :
  unescape (esc_char c ++ t) = String c (unescape t).
Proof.
  unfold esc_char.
  destruct (Ascii.eqb_spec c BACKSLASH) as [->|Hb]; [reflexivity|].
  destruct (Ascii.eqb_spec c TAB) as [->|Ht]; [reflexivity|].
  destruct (Ascii.eqb_spec c CR) as [->|Hr]; [reflexivity|].
  destruct (Ascii.eqb_spec c LF) as [->|Hn]; [reflexivity|].
  simpl. destruct (Ascii.eqb_spec c BACKSLASH); [contradiction|reflexivity].
Qed.

Lemma unescape_esc_chars (s : string) : unescape (esc_chars s) = s.
Proof.
  induction s as [|c s IH]; [reflexivity|].
  simpl. now rewrite unescape_esc_char, IH.
Qed.

Lemma unescape__esc (s : string) : unescape (_esc s) = s.
Proof. now rewrite _esc_chars, unescape_esc_chars. Qed.

Lemma _esc_inj (s t : string) : _esc s = _esc t -> s = t.
Proof.
  intros H. rewrite <- (unescape__esc s), <- (unescape__esc t). now rewrite H.
Qed.

(** C4. [_esc] returns the empty string unchanged; on every string it is
    the four substitutions (backslash, tab, carriage return, newline) with
    the backslash one applied first, which amounts to one pass writing the
    two-character sequence of each such character.  Its output holds no raw
    tab, carriage return or newline, [unescape] recovers the original, and
    [_esc] is injective. *)
Theorem esc_escapes_and_round_trips (s : string) :
  _esc "" = ""
  /\ _esc s = replace LF "\n" (replace CR "\r" (replace TAB "\t"
                (replace BACKSLASH "\\" s)))
  /\ _esc s = esc_chars s
  /\ contains TAB (_esc s) = false
  /\ contains CR (_esc s) = false
  /\ contains LF (_esc s) = false
  /\ unescape (_esc s) = s
  /\ (forall t : string, _esc s = _esc t -> s = t).
Proof.
  repeat split.
  - apply _esc_four_passes.
  - apply _esc_chars.
  - rewrite _esc_chars. apply esc_chars_clean; auto.
  - rewrite _esc_chars. apply esc_chars_clean; auto.
  - rewrite _esc_chars. apply esc_chars_clean; auto.
  - apply unescape__esc.
  - apply _esc_inj.
Qed.

(** The value the specification's escaping test uses: a tab, a newline, a
    carriage return and a backslash between letters. *)
Example esc_sample :
  _esc (String "a" (String TAB (String "b" (String LF (String "c"
         (String CR (String "d" (String BACKSLASH "e"))))))))
  = "a\tb\nc\rd\\e".
Proof. reflexivity. Qed.

End Escaping.

(* ================================================================== *)
(** ** Letters and case *)
(* ================================================================== *)

Section Letters.

Ltac by_cases_on c := destruct c as [[] [] [] [] [] [] [] []]; reflexivity.

Lemma lower_char_j c : Ascii.eqb (lower_char c) "j" = Ascii.eqb c "j" || Ascii.eqb c "J".
Proof. by_cases_on c. Qed.
Lemma lower_char_v c : Ascii.eqb (lower_char c) "v" = Ascii.eqb c "v" || Ascii.eqb c "V".
Proof. by_cases_on c. Qed.
Lemma lower_char_b c : Ascii.eqb (lower_char c) "b" = Ascii.eqb c "b" || Ascii.eqb c "B".
Proof. by_cases_on c. Qed.
Lemma lower_char_n c : Ascii.eqb (lower_char c) "n" = Ascii.eqb c "n" || Ascii.eqb c "N".
Proof. by_cases_on c. Qed.
Lemma lower_char_z c : Ascii.eqb (lower_char c) "z" = Ascii.eqb c "z" || Ascii.eqb c "Z".
Proof. by_cases_on c. Qed.
Lemma lower_char_c c : Ascii.eqb (lower_char c) "c" = Ascii.eqb c "c" || Ascii.eqb c "C".
Proof. by_cases_on c. Qed.
Lemma lower_char_g c : Ascii.eqb (lower_char c) "g" = Ascii.eqb c "g" || Ascii.eqb c "G".
Proof. by_cases_on c. Qed.
Lemma lower_char_f c : Ascii.eqb (lower_char c) "f" = Ascii.eqb c "f" || Ascii.eqb c "F".
Proof. by_cases_on c. Qed.

(** A letter is found in [s.lower()] exactly when it occurs in [s] in one
    of its two cases. *)
Lemma contains_lower (x X : ascii) (s : string) :
  (forall c, Ascii.eqb (lower_char c) x = Ascii.eqb c x || Ascii.eqb c X) ->
  contains x (lower s) = contains x s || contains X s.
Proof.
  intros Hx. induction s as [|c s IH]; [reflexivity|].
  simpl. rewrite Hx, IH.
  destruct (Ascii.eqb c x), (Ascii.eqb c X), (contains x s), (contains X s); reflexivity.
Qed.

Lemma str_or_nonempty (s d : string) : s <> "" -> str_or s d = s.
Proof.
  intros H. unfold str_or. destruct (String.eqb_spec s ""); [contradiction|reflexivity].
Qed.

Lemma fmt_char_j (fmt : string) :
  (first1 (lower (str_or fmt DEFAULT_FMT)) =? "j")%string = starts_with_j fmt.
Proof.
  destruct fmt as [|c rest]; [reflexivity|].
  cbn. rewrite lower_char_j.
  destruct (Ascii.eqb c "j" || Ascii.eqb c "J"); reflexivity.
Qed.

Lemma no_recognized_lower (x : ascii) (out : string) :
  contains x "vbfnzcg" = true ->
  no_recognized out = true -> contains x (lower out) = false.
Proof.
  intros Hx. induction out as [|c out IH]; [reflexivity|].
  simpl. intros H. apply andb_true_iff in H. destruct H as [Hc Hrest].
  rewrite (IH Hrest), orb_false_r.
  destruct (Ascii.eqb_spec (lower_char c) x) as [E|]; [|reflexivity].
  unfold recognized in Hc. rewrite E, Hx in Hc. discriminate.
Qed.

End Letters.

(* ================================================================== *)
(** ** Choice of the encoding *)
(* ================================================================== *)

Section Encoding.

Variable env : Env.
Variables path out sheets : string.
Variables row_start row_end col_start col_end : Z.
Variable sparse : bool.

(** C1, amended.  [read_excel] produces the structured encoding exactly
    when [fmt] is empty or its first character is j or J; for every other
    first character, t and T among them, it produces the delimited-text
    encoding. *)
Theorem fmt_selects_encoding (fmt : string) :
  Read.read_excel env path out fmt sheets row_start row_end col_start col_end sparse
  = (wb <- load_workbook env path ;;
     if starts_with_j fmt
     then structured_encoding wb out sheets row_start row_end col_start col_end sparse
     else text_encoding wb out sheets row_start row_end col_start col_end sparse)
  /\ (starts_with_t fmt = true -> starts_with_j fmt = false).
Proof.
  split.
  - unfold Read.read_excel. destruct (load_workbook env path) as [wb|e]; [|reflexivity].
    cbn [bind].
    unfold read_workbook, structured_encoding, text_encoding,
      structured_document, text_lines, requested_names.
    rewrite fmt_char_j.
    destruct (read_excel_collect _ _ _ _ _ _ _ _); destruct (starts_with_j fmt);
      reflexivity.
  - destruct fmt as [|c rest]; [discriminate|].
    cbn. destruct c as [[] [] [] [] [] [] [] []]; cbn; congruence.
Qed.

End Encoding.

(** C1 as stated fails: the first character of ["x"] is not t, yet the call
    yields the delimited text and not the structured encoding. *)
Lemma fmt_x_yields_text :
  starts_with_t "x" = false
  /\ Read.read_excel Sample.env "/data/book.xlsx" "vb" "x" "Sheet1" 0 0 0 0 true
     = Ok (join (String LF "")
             [">Sheet1";
              join (String TAB "") ["c"; "1"; "1"; "Name"; "1"];
              join (String TAB "") ["c"; "1"; "2"; "Age"; "0"];
              join (String TAB "") ["c"; "2"; "1"; "Amy"; "0"];
              join (String TAB "") ["c"; "2"; "2"; "30"; "0"]])
  /\ Read.read_excel Sample.env "/data/book.xlsx" "vb" "x" "Sheet1" 0 0 0 0 true
     <> structured_encoding Sample.book "vb" "Sheet1" 0 0 0 0 true.
Proof.
  split; [reflexivity|]. split; [vm_compute; reflexivity|].
  vm_compute. discriminate.
Qed.

(* ================================================================== *)
(** ** Field selection and the two projections of a cell *)
(* ================================================================== *)

Section Projection.

Lemma parse_out_letters (out : string) :
  out <> "" ->
  _parse_out out
  = {| fv := contains "v" out || contains "V" out;
       fb := contains "b" out || contains "B" out;
       fn := contains "n" out || contains "N" out;
       fz := contains "z" out || contains "Z" out;
       fc := contains "c" out || contains "C" out;
       fg := contains "g" out || contains "G" out;
       ff := contains "f" out || contains "F" out |}.
Proof.
  intros H. unfold _parse_out. rewrite (str_or_nonempty _ _ H).
  rewrite (contains_lower _ _ _ lower_char_v), (contains_lower _ _ _ lower_char_b),
    (contains_lower _ _ _ lower_char_n), (contains_lower _ _ _ lower_char_z),
    (contains_lower _ _ _ lower_char_c), (contains_lower _ _ _ lower_char_g),
    (contains_lower _ _ _ lower_char_f).
  reflexivity.
Qed.

Lemma parse_out_no_letters (out : string) :
  out <> "" -> no_recognized out = true -> _parse_out out = no_fields.
Proof.
  intros H Hn. unfold _parse_out, no_fields. rewrite (str_or_nonempty _ _ H).
  rewrite !(no_recognized_lower _ out) by (reflexivity || exact Hn).
  reflexivity.
Qed.

(** C3, amended.  For a non-empty [out], each field is selected exactly when
    its letter occurs in [out] in lower or upper case, whatever else [out]
    holds; when no recognized letter occurs, the structured projection of a
    cell has only [row] and [col] and its text tokens are the bare ["c"],
    row and column.  The empty [out] selects the default fields v, b and
    f. *)
Theorem out_selects_fields (out : string) (cell : _CellData) :
  out <> "" ->
  _parse_out out
  = {| fv := contains "v" out || contains "V" out;
       fb := contains "b" out || contains "B" out;
       fn := contains "n" out || contains "N" out;
       fz := contains "z" out || contains "Z" out;
       fc := contains "c" out || contains "C" out;
       fg := contains "g" out || contains "G" out;
       ff := contains "f" out || contains "F" out |}
  /\ (no_recognized out = true ->
      _cell_to_json cell (_parse_out out)
      = [("row", JInt (row cell)); ("col", JInt (col cell))]
      /\ _cell_to_text_parts cell (_parse_out out)
         = ["c"; str_int (row cell); str_int (col cell)])
  /\ _parse_out "" = _parse_out "vbf".
Proof.
  intros H. split; [now apply parse_out_letters|]. split; [|reflexivity].
  intros Hn. rewrite (parse_out_no_letters _ H Hn). split; reflexivity.
Qed.

Lemma out_selects_fields_witness :
  _cell_to_json Sample.age (_parse_out "XY 1")
  = [("row", JInt 1); ("col", JInt 2)]
  /\ _cell_to_text_parts Sample.age (_parse_out "XY 1") = ["c"; "1"; "2"].
Proof.
  refine (proj1 (proj2 (out_selects_fields "XY 1" Sample.age _)) _).
  - discriminate.
  - reflexivity.
Defined.

(** C3 as stated fails on the empty [out]: it holds no recognized letter,
    yet the cell carries its value and its bold flag besides [row] and
    [col], and its text line has tokens after the column. *)
Lemma empty_out_is_not_bare :
  no_recognized "" = true
  /\ keys (_cell_to_json Sample.age (_parse_out "")) = ["row"; "col"; "value"; "bold"]
  /\ _cell_to_text_parts Sample.age (_parse_out "") = ["c"; "1"; "2"; "Age"; "0"; "0"].
Proof. repeat split. Qed.

(** Each token after the column is the rendering of one selected field, in
    the order value, formula, bold, font name, font size, font colour, fill
    colour. *)
Lemma text_tokens_by_key (cell : _CellData) (fields : Fields) :
  text_field_tokens cell fields = map (text_token cell) (text_field_keys fields).
Proof.
  destruct fields as [[] [] [] [] [] [] []]; reflexivity.
Qed.

Lemma json_keys_by_key (cell : _CellData) (fields : Fields) :
  json_field_keys cell fields
  = filter (fun k => negb (k =? "formula")%string || is_formula cell)
           (text_field_keys fields).
Proof.
  destruct cell as [r c v isf b fnm fsz fcl fil].
  destruct fields as [[] [] [] [] [] [] []]; destruct isf; reflexivity.
Qed.

(** C2, amended.  The tokens after ["c"], row and column render the selected
    fields in the fixed order; the keys of the structured projection other
    than [row] and [col] are the keys of those tokens in the same order,
    without [formula] when the cell is not a formula.  The two sequences
    coincide when f is not selected or the cell is a formula. *)
Theorem field_order_consistency (cell : _CellData) (fields : Fields) :
  text_field_tokens cell fields = map (text_token cell) (text_field_keys fields)
  /\ json_field_keys cell fields
     = filter (fun k => negb (k =? "formula")%string || is_formula cell)
              (text_field_keys fields)
  /\ (ff fields = false \/ is_formula cell = true ->
      json_field_keys cell fields = text_field_keys fields).
Proof.
  split; [apply text_tokens_by_key|]. split; [apply json_keys_by_key|].
  intros H. rewrite json_keys_by_key.
  destruct fields as [[] [] [] [] [] [] []]; destruct (is_formula cell);
    try reflexivity; destruct H; discriminate.
Qed.

Lemma field_order_consistency_witness :
  json_field_keys Sample.age (_parse_out "vbz") = text_field_keys (_parse_out "vbz").
Proof.
  refine (proj2 (proj2 (field_order_consistency Sample.age (_parse_out "vbz"))) _).
  left. reflexivity.
Defined.

(** C2 as stated fails with the default fields on a cell that is not a
    formula: the text rendering has a formula token between value and bold,
    the structured projection has no [formula] key. *)
Lemma formula_key_missing :
  json_field_keys Sample.age (_parse_out "vbf") = ["value"; "bold"]
  /\ text_field_keys (_parse_out "vbf") = ["value"; "formula"; "bold"]
  /\ text_field_tokens Sample.age (_parse_out "vbf") = ["Age"; "0"; "0"]
  /\ json_field_keys Sample.age (_parse_out "vbf") <> text_field_keys (_parse_out "vbf").
Proof.
  repeat split. vm_compute. discriminate.
Qed.

(** The font-size token is the text of the size when the size is truthy and
    empty otherwise; the two flags render as 1 or 0. *)
Lemma text_flags_and_size (cell : _CellData) :
  text_token cell "formula" = (if is_formula cell then "1" else "0")
  /\ text_token cell "bold" = (if bold cell then "1" else "0")
  /\ (font_size cell = PyNone -> text_token cell "font_size" = "")
  /\ (truthy (font_size cell) = true ->
      text_token cell "font_size" = str (font_size cell)).
Proof.
  repeat split.
  - intros H. unfold text_token. cbn. now rewrite H.
  - intros H. unfold text_token. cbn. now rewrite H.
Qed.

(** C9 at a font size of 0.0: the size is present and its text is 0.0, the
    structured projection carries it, and the text rendering writes an empty
    token for it. *)
Theorem zero_font_size_renders_empty :
  font_size Sample.zero_sized = PyFloat "0.0" false
  /\ str (font_size Sample.zero_sized) = "0.0"
  /\ _cell_to_json Sample.zero_sized Sample.only_z
     = [("row", JInt 1); ("col", JInt 1); ("font_size", JFloat "0.0")]
  /\ _cell_to_text_parts Sample.zero_sized Sample.only_z = ["c"; "1"; "1"; ""].
Proof. repeat split. Qed.

End Projection.

(* ================================================================== *)
(** ** Range resolution *)
(* ================================================================== *)

Section Ranges.

Lemma natural_ge_1 (reported : option N) : 1 <= natural reported.
Proof.
  unfold natural, opt_int_or. destruct reported as [n|]; simpl; [|lia].
  destruct (Z.eqb_spec (Z.of_N n) 0); lia.
Qed.

Lemma resolves_pick (override : Z) (reported : option N) :
  resolves override reported (if override >? 0 then override else natural reported).
Proof.
  unfold resolves. destruct (Z.gtb_spec override 0) as [Hpos|Hnon].
  - repeat split; intros; lia.
  - repeat split; intros; try lia.
    + subst reported. unfold natural, opt_int_or. simpl.
      destruct (Z.eqb_spec (Z.of_N n) 0); lia.
    + unfold natural. now destruct H0 as [-> | ->].
Qed.

Lemma pick_ge_1 (override : Z) (reported : option N) :
  1 <= (if override >? 0 then override else natural reported).
Proof.
  destruct (Z.gtb_spec override 0); [lia|apply natural_ge_1].
Qed.

(** Every resolved bound is at least 1, so [ws.cell] accepts it. *)
Lemma _sheet_range_ge_1 (ws : Xl.Worksheet) (rs re cs ce r1 r2 c1 c2 : Z) :
  _sheet_range ws rs re cs ce = (r1, r2, c1, c2) ->
  1 <= r1 /\ 1 <= r2 /\ 1 <= c1 /\ 1 <= c2.
Proof.
  unfold _sheet_range. intros H. injection H as <- <- <- <-.
  repeat split; apply pick_ge_1.
Qed.

(** C6.  [_sheet_range] always returns four integers, and each of them is
    the override when the override is positive, otherwise the bound the
    sheet reports, otherwise 1. *)
Theorem sheet_range_resolves (ws : Xl.Worksheet) (row_start row_end col_start col_end : Z) :
  exists r1 r2 c1 c2 : Z,
    _sheet_range ws row_start row_end col_start col_end = (r1, r2, c1, c2)
    /\ resolves row_start (Xl.min_row ws) r1
    /\ resolves row_end (Xl.max_row ws) r2
    /\ resolves col_start (Xl.min_column ws) c1
    /\ resolves col_end (Xl.max_column ws) c2.
Proof.
  unfold _sheet_range. do 4 eexists. split; [reflexivity|].
  repeat split; apply resolves_pick.
Qed.

(** The specification's example: on a sheet whose used range is rows 2 to 5
    and columns 1 to 3, leaving every bound at 0 resolves to the same range
    as passing the four bounds. *)
Example sheet_range_defaulting (grid : Z -> Z -> Xl.Cell) :
  let ws := {| Xl.min_row := Some 2%N; Xl.max_row := Some 5%N;
               Xl.min_column := Some 1%N; Xl.max_column := Some 3%N;
               Xl.grid := grid |} in
  _sheet_range ws 0 0 0 0 = _sheet_range ws 2 5 1 3.
Proof. reflexivity. Qed.

End Ranges.

(* ================================================================== *)
(** ** The tool facade *)
(* ================================================================== *)

Section Facade.



End Facade.

(* ================================================================== *)
(** ** Cell extraction *)
(* ================================================================== *)

Section Extraction.

Lemma lstrip_cases (s : string) :
  (all_space s = true /\ lstrip s = "")
  \/ (all_space s = false
      /\ exists c s', lstrip s = String c s' /\ isspace c = false).
Proof.
  induction s as [|c s IH]; [now left|].
  simpl. destruct (isspace c) eqn:Hc; simpl.
  - exact IH.
  - right. split; [reflexivity|]. now exists c, s.
Qed.

Lemma rstrip_keeps_head (c : ascii) (s : string) :
  isspace c = false -> rstrip (String c s) <> "".
Proof.
  intros Hc. simpl. rewrite Hc. destruct (rstrip s); discriminate.
Qed.

(** [s.strip()] is empty exactly when [s] is empty or all whitespace. *)
Lemma strip_empty (s : string) : (strip s =? "")%string = all_space s.
Proof.
  unfold strip. destruct (lstrip_cases s) as [[Ha ->] | [Ha [c [s' [-> Hc]]]]].
  - now rewrite Ha.
  - rewrite Ha. apply String.eqb_neq. now apply rstrip_keeps_head.
Qed.

Lemma _is_blank_non_blank (v : PyVal) : _is_blank v = negb (non_blank v).
Proof.
  destruct v; simpl; try reflexivity.
  now rewrite strip_empty, negb_involutive.
Qed.

Lemma skip_test (ws : Xl.Worksheet) (sparse : bool) (rc : Z * Z) :
  sparse && _is_blank (raw_value ws rc) = negb (emitted ws sparse rc).
Proof.
  unfold emitted. fold (raw_value ws rc). rewrite _is_blank_non_blank.
  destruct sparse, (non_blank (raw_value ws rc)); reflexivity.
Qed.

Lemma in_range (lo hi x : Z) : In x (range lo hi) <-> lo <= x < hi.
Proof.
  unfold range. rewrite in_map_iff. split.
  - intros [i [<- Hi]]. apply in_seq in Hi. lia.
  - intros H. exists (Z.to_nat (x - lo)). split; [lia|]. apply in_seq. lia.
Qed.


Lemma offsets_sorted (lo : Z) (n a : nat) :
  StronglySorted Z.lt (map (fun i => lo + Z.of_nat i) (seq a n)).
Proof.
  revert a. induction n as [|n IH]; intros a; simpl; constructor.
  - apply IH.
  - apply Forall_forall. intros y Hy. apply in_map_iff in Hy.
    destruct Hy as [i [<- Hi]]. apply in_seq in Hi. lia.
Qed.

Lemma range_sorted (lo hi : Z) : StronglySorted Z.lt (range lo hi).
Proof. apply offsets_sorted. Qed.

Lemma sorted_app {A : Type} (R : A -> A -> Prop) (l1 l2 : list A) :
  StronglySorted R l1 -> StronglySorted R l2 ->
  (forall x y, In x l1 -> In y l2 -> R x y) ->
  StronglySorted R (l1 ++ l2).
Proof.
  intros H1 H2 H. induction H1 as [|a l Hl IH Ha]; simpl; [exact H2|].
  constructor.
  - apply IH. intros x y Hx Hy. apply H; [now right|exact Hy].
  - apply Forall_app. split; [exact Ha|].
    apply Forall_forall. intros y Hy. apply H; [now left|exact Hy].
Qed.

Lemma sorted_filter {A : Type} (R : A -> A -> Prop) (f : A -> bool) (l : list A) :
  StronglySorted R l -> StronglySorted R (filter f l).
Proof.
  induction 1 as [|a l Hl IH Ha]; simpl; [constructor|].
  destruct (f a); [|exact IH]. constructor; [exact IH|].
  apply Forall_forall. intros y Hy. apply filter_In in Hy.
  rewrite Forall_forall in Ha. now apply Ha.
Qed.

Lemma row_sorted (r : Z) (cols : list Z) :
  StronglySorted Z.lt cols ->
  StronglySorted row_major (map (fun c => (r, c)) cols).
Proof.
  induction 1 as [|c cols Hc IH Hall]; simpl; constructor; [exact IH|].
  apply Forall_forall. intros [r' c'] Hin. apply in_map_iff in Hin.
  destruct Hin as [x [E Hx]]. injection E as <- <-.
  rewrite Forall_forall in Hall. right. simpl. split; [reflexivity|now apply Hall].
Qed.

Lemma grid_sorted (rows cols : list Z) :
  StronglySorted Z.lt rows -> StronglySorted Z.lt cols ->
  StronglySorted row_major (flat_map (fun r => map (fun c => (r, c)) cols) rows).
Proof.
  intros Hrows Hcols. induction Hrows as [|r rows Hr IH Hall]; simpl; [constructor|].
  apply sorted_app; [now apply row_sorted|exact IH|].
  intros [r1 c1] [r2 c2] H1 H2.
  apply in_map_iff in H1. destruct H1 as [x [E _]]. injection E as <- <-.
  apply in_flat_map in H2. destruct H2 as [r' [Hr' Hin]].
  apply in_map_iff in Hin. destruct Hin as [y [E _]]. injection E as <- <-.
  rewrite Forall_forall in Hall. left. simpl. now apply Hall.
Qed.

Lemma coords_sorted (r1 r2 c1 c2 : Z) : StronglySorted row_major (coords r1 r2 c1 c2).
Proof. apply grid_sorted; apply range_sorted. Qed.

Lemma in_coords (r1 r2 c1 c2 r c : Z) :
  In (r, c) (coords r1 r2 c1 c2) <-> r1 <= r <= r2 /\ c1 <= c <= c2.
Proof.
  unfold coords. rewrite in_flat_map. split.
  - intros [x [Hx Hin]]. apply in_map_iff in Hin. destruct Hin as [y [E Hy]].
    injection E as <- <-. apply in_range in Hx. apply in_range in Hy. lia.
  - intros [Hr Hc]. exists r. split; [apply in_range; lia|].
    apply in_map_iff. exists c. split; [reflexivity|apply in_range; lia].
Qed.


Lemma map_result_app {A B : Type} (f : A -> result B) (l1 l2 : list A) :
  map_result f (l1 ++ l2)
  = (a <- map_result f l1 ;; b <- map_result f l2 ;; Ok (a ++ b)).
Proof.
  induction l1 as [|x l1 IH]; simpl.
  - now destruct (map_result f l2).
  - destruct (f x) as [y|e]; [|reflexivity]. cbn [bind]. rewrite IH.
    destruct (map_result f l1) as [a|e]; [|reflexivity]. cbn [bind].
    now destruct (map_result f l2).
Qed.

(** The loop returns when every call does. *)
Lemma map_result_all_ok {A B : Type} (f : A -> result B) (g : A -> B) (l : list A) :
  (forall x, In x l -> f x = Ok (g x)) -> map_result f l = Ok (map g l).
Proof.
  intros H. induction l as [|x l IH]; [reflexivity|].
  simpl. rewrite H by now left. cbn [bind]. rewrite IH; [reflexivity|].
  intros y Hy. apply H. now right.
Qed.

(** When the loop returns, every call did, and the results are theirs. *)
Lemma map_result_inv {A B : Type} (f : A -> result B) (l : list A) (out : list B) :
  map_result f l = Ok out -> Forall2 (fun x y => f x = Ok y) l out.
Proof.
  revert out. induction l as [|x l IH]; intros out; simpl.
  - intros H. injection H as <-. constructor.
  - destruct (f x) as [y|e] eqn:Hx; [|discriminate]. cbn [bind].
    destruct (map_result f l) as [ys|e]; [|discriminate]. cbn [bind].
    intros H. injection H as <-. constructor; [exact Hx|now apply IH].
Qed.

(** The loop raises [e] when one call does and no call raises anything
    else. *)
Lemma map_result_raises {A B : Type} (f : A -> result B) (e : exn) (l : list A) :
  (exists x, In x l /\ f x = Raise e) ->
  (forall x e', In x l -> f x = Raise e' -> e' = e) ->
  map_result f l = Raise e.
Proof.
  induction l as [|x l IH]; intros [x0 [Hin Hx0]] Hsame; [contradiction|].
  simpl. destruct (f x) as [y|e'] eqn:Hx.
  - cbn [bind]. rewrite IH; [reflexivity| |].
    + destruct Hin as [->|Hin]; [congruence|eauto].
    + intros z e' Hz. apply Hsame. now right.
  - cbn [bind]. f_equal. apply (Hsame x); [now left|exact Hx].
Qed.

Lemma map_result_filter {A B : Type} (f : A -> result B) (p : A -> bool)
    (q : B -> bool) (l : list A) (out : list B) :
  (forall x y, f x = Ok y -> p x = q y) ->
  map_result f l = Ok out ->
  map_result f (filter p l) = Ok (filter q out).
Proof.
  intros Hpq. revert out. induction l as [|x l IH]; intros out; simpl.
  - intros H. injection H as <-. reflexivity.
  - destruct (f x) as [y|e] eqn:Hx; [|discriminate]. cbn [bind].
    destruct (map_result f l) as [ys|e]; [|discriminate]. cbn [bind].
    intros H. injection H as <-. simpl. rewrite <- (Hpq x y Hx).
    destruct (p x); simpl; [rewrite Hx; cbn [bind]|]; now rewrite (IH ys).
Qed.

(** The inner loop appends, in column order, the records of the cells it
    does not skip, and raises what the first of them raises. *)
Lemma _collect_cells_cols_eq (ws : Xl.Worksheet) (sparse : bool) (row : Z) :
  1 <= row ->
  forall (cols : list Z) (cells : list (_CellDataOf ColorVal)),
    Forall (fun c => 1 <= c) cols ->
    _collect_cells_cols ws row cols sparse cells
    = (new <- map_result (cell_at ws)
                (filter (emitted ws sparse) (map (fun c => (row, c)) cols)) ;;
       Ok (cells ++ new)).
Proof.
  intros Hrow cols. induction cols as [|c cols IH]; intros cells Hcols; simpl.
  - now rewrite app_nil_r.
  - inversion Hcols as [|? ? Hc Hrest]; subst.
    unfold Xl.cell.
    destruct (Z.ltb_spec row 1); [lia|]. destruct (Z.ltb_spec c 1); [lia|].
    cbn [orb bind].
    change (Xl.value (Xl.grid ws row c)) with (raw_value ws (row, c)).
    rewrite skip_test. destruct (emitted ws sparse (row, c)); cbn [negb].
    + cbn [map_result]. unfold cell_at at 1. cbn [fst snd].
      destruct (_fill_color (Xl.grid ws row c)) as [fill|e]; [|reflexivity].
      cbn [bind]. rewrite (IH _ Hrest).
      destruct (map_result _ _) as [new|e]; [|reflexivity].
      cbn [bind]. now rewrite <- app_assoc.
    + apply (IH _ Hrest).
Qed.

(** The outer loop does so row after row. *)
Lemma _collect_cells_rows_eq (ws : Xl.Worksheet) (sparse : bool) (cols : list Z) :
  Forall (fun c => 1 <= c) cols ->
  forall (rows : list Z) (cells : list (_CellDataOf ColorVal)),
    Forall (fun r => 1 <= r) rows ->
    _collect_cells_rows ws rows cols sparse cells
    = (new <- map_result (cell_at ws)
                (filter (emitted ws sparse)
                   (flat_map (fun r => map (fun c => (r, c)) cols) rows)) ;;
       Ok (cells ++ new)).
Proof.
  intros Hcols rows. induction rows as [|r rows IH]; intros cells Hrows; simpl.
  - now rewrite app_nil_r.
  - inversion Hrows as [|? ? Hr Hrest]; subst.
    rewrite (_collect_cells_cols_eq ws sparse r Hr cols cells Hcols).
    rewrite filter_app, map_result_app.
    destruct (map_result _ (filter _ (map _ cols))) as [a|e]; [|reflexivity].
    cbn [bind]. rewrite (IH _ Hrest).
    destruct (map_result _ _) as [b|e]; [|reflexivity].
    cbn [bind]. now rewrite app_assoc.
Qed.

Lemma range_ge (lo hi : Z) : 1 <= lo -> Forall (fun x => 1 <= x) (range lo hi).
Proof.
  intros H. apply Forall_forall. intros x Hx. apply in_range in Hx. lia.
Qed.

(** On bounds from 1 up [_collect_cells] is one loop over the emitted
    coordinates of the range in row-major order, faults included. *)
Lemma _collect_cells_eq (ws : Xl.Worksheet) (r1 r2 c1 c2 : Z) (sparse : bool) :
  1 <= r1 -> 1 <= c1 ->
  _collect_cells ws r1 r2 c1 c2 sparse
  = map_result (cell_at ws) (filter (emitted ws sparse) (coords r1 r2 c1 c2)).
Proof.
  intros Hr Hc. unfold _collect_cells.
  rewrite _collect_cells_rows_eq by now apply range_ge.
  fold (coords r1 r2 c1 c2). now destruct (map_result _ _).
Qed.

Lemma cell_at_plain (ws : Xl.Worksheet) (rc : Z * Z) :
  gradient (Xl.grid ws (fst rc) (snd rc)) = false ->
  cell_at ws rc = Ok (record_at ws rc).
Proof.
  unfold cell_at, record_at, fill_value, gradient, _fill_color.
  destruct (Xl.fill (Xl.grid ws (fst rc) (snd rc))) as [[[clr|]|]|];
    try discriminate; reflexivity.
Qed.

Lemma cell_at_gradient (ws : Xl.Worksheet) (rc : Z * Z) :
  gradient (Xl.grid ws (fst rc) (snd rc)) = true ->
  cell_at ws rc = Raise (AttributeError "fgColor").
Proof.
  unfold cell_at, gradient, _fill_color.
  destruct (Xl.fill (Xl.grid ws (fst rc) (snd rc))) as [[[clr|]|]|];
    try discriminate; reflexivity.
Qed.

Lemma cell_at_cases (ws : Xl.Worksheet) (rc : Z * Z) :
  (gradient (Xl.grid ws (fst rc) (snd rc)) = false
   /\ cell_at ws rc = Ok (record_at ws rc))
  \/ (gradient (Xl.grid ws (fst rc) (snd rc)) = true
      /\ cell_at ws rc = Raise (AttributeError "fgColor")).
Proof.
  destruct (gradient (Xl.grid ws (fst rc) (snd rc))) eqn:Hg.
  - right. split; [reflexivity|now apply cell_at_gradient].
  - left. split; [reflexivity|now apply cell_at_plain].
Qed.


(** When extraction returns, no emitted cell has a gradient fill and the
    records are those of the emitted coordinates. *)
Lemma _collect_cells_inv (ws : Xl.Worksheet) (r1 r2 c1 c2 : Z) (sparse : bool)
    (cells : list (_CellDataOf ColorVal)) :
  1 <= r1 -> 1 <= c1 ->
  _collect_cells ws r1 r2 c1 c2 sparse = Ok cells ->
  cells = map (record_at ws) (filter (emitted ws sparse) (coords r1 r2 c1 c2))
  /\ forall rc, In rc (coords r1 r2 c1 c2) -> emitted ws sparse rc = true ->
                gradient (Xl.grid ws (fst rc) (snd rc)) = false.
Proof.
  intros Hr Hc. rewrite (_collect_cells_eq ws r1 r2 c1 c2 sparse Hr Hc).
  intros H. apply map_result_inv in H.
  assert (Hall : forall l out,
             Forall2 (fun rc y => cell_at ws rc = Ok y) l out ->
             out = map (record_at ws) l
             /\ forall rc, In rc l -> gradient (Xl.grid ws (fst rc) (snd rc)) = false).
  { induction 1 as [|rc y l out Hrc _ [IH1 IH2]]; [split; [reflexivity|contradiction]|].
    destruct (cell_at_cases ws rc) as [[Hg E]|[_ E]]; rewrite E in Hrc;
      [|discriminate].
    injection Hrc as <-. split; [simpl; now rewrite IH1|].
    intros rc' [<-|Hin]; [exact Hg|now apply IH2]. }
  destruct (Hall _ _ H) as [H1 H2]. split; [exact H1|].
  intros rc Hin Hem. apply H2. apply filter_In. now split.
Qed.

Lemma coord_record_at (ws : Xl.Worksheet) (l : list (Z * Z)) :
  map coord (map (record_at ws) l) = l.
Proof.
  induction l as [|[r c] l IH]; simpl; [reflexivity|]. now rewrite IH.
Qed.

Lemma filter_all {A : Type} (f : A -> bool) (l : list A) :
  (forall x, f x = true) -> filter f l = l.
Proof.
  intros H. induction l as [|x l IH]; simpl; [reflexivity|]. now rewrite H, IH.
Qed.


End Extraction.


(** C5 on a sheet with gradient fills.  The used range of the sheet is
    rows 1 to 2 and columns 1 to 2, four coordinates, and its cell at row 2,
    column 1 holds a value on a gradient fill: dense extraction and sparse
    extraction both raise and emit nothing.  On row 1 alone, where the
    gradient fill is on an empty cell, sparse extraction skips that cell
    and returns, and dense extraction raises.  A call of [read_excel] for
    the sheet raises the same fault in either encoding. *)
Theorem gradient_fill_stops_extraction :
  _sheet_range Sample.shaded 0 0 0 0 = (1, 2, 1, 2)
  /\ Xl.fill (Xl.grid Sample.shaded 2 1) = Some Xl.GradientFill
  /\ raw_value Sample.shaded (2, 1) = PyStr "y"
  /\ _collect_cells Sample.shaded 1 2 1 2 false = Raise (AttributeError "fgColor")
  /\ _collect_cells Sample.shaded 1 2 1 2 true = Raise (AttributeError "fgColor")
  /\ _collect_cells Sample.shaded 1 1 1 2 false = Raise (AttributeError "fgColor")
  /\ (exists cells, _collect_cells Sample.shaded 1 1 1 2 true = Ok cells
                    /\ map coord cells = [(1, 1)])
  /\ read_workbook Sample.styled "v" "j" "Shaded" 0 0 0 0 true
     = Raise (AttributeError "fgColor")
  /\ read_workbook Sample.styled "v" "t" "Shaded" 0 0 0 0 false
     = Raise (AttributeError "fgColor").
Proof.
  repeat split; try reflexivity.
  eexists. split; [vm_compute; reflexivity|reflexivity].
Qed.

(* ================================================================== *)
(** ** Dictionaries in insertion order *)
(* ================================================================== *)

Section Dicts.

Context {V : Type}.

Lemma dict_get_set (k k' : string) (v : V) (d : dict V) :
  dict_get k (dict_set k' v d) = if (k' =? k)%string then Some v else dict_get k d.
Proof.
  induction d as [|[k0 v0] d IH]; simpl; [reflexivity|].
  destruct (String.eqb_spec k0 k') as [->|Hne]; simpl.
  - destruct (k' =? k)%string; reflexivity.
  - rewrite IH. destruct (String.eqb_spec k0 k) as [->|]; [|reflexivity].
    destruct (String.eqb_spec k' k); [congruence|reflexivity].
Qed.

Lemma keys_set (k : string) (v : V) (d : dict V) :
  keys (dict_set k v d) = add_name (keys d) k.
Proof.
  unfold add_name. induction d as [|[k0 v0] d IH]; simpl; [reflexivity|].
  rewrite (String.eqb_sym k k0).
  destruct (String.eqb_spec k0 k) as [->|Hne]; simpl; [reflexivity|].
  rewrite IH. destruct (existsb (String.eqb k) (keys d)); reflexivity.
Qed.

Lemma set_each_cons (val : string -> option V) (n : string) (names : list string)
    (d : dict V) :
  set_each val (n :: names) d
  = set_each val names (match val n with Some v => dict_set n v d | None => d end).
Proof. reflexivity. Qed.

(** After the loop a name that was iterated over holds its own value, if it
    has one; every other entry is as before. *)
Lemma set_each_get (val : string -> option V) (names : list string) (k : string) :
  forall d : dict V,
    dict_get k (set_each val names d)
    = if existsb (String.eqb k) names
      then match val k with Some v => Some v | None => dict_get k d end
      else dict_get k d.
Proof.
  induction names as [|n names IH]; intros d; [reflexivity|].
  rewrite set_each_cons, IH. simpl.
  destruct (String.eqb_spec k n) as [->|Hne]; simpl.
  - destruct (val n) as [v|]; [|now destruct (existsb _ names)].
    rewrite dict_get_set, String.eqb_refl. now destruct (existsb _ names).
  - destruct (val n) as [v|]; [|reflexivity].
    rewrite dict_get_set. destruct (String.eqb_spec n k); [congruence|reflexivity].
Qed.

(** The keys grow by the names that have a value, each at its first
    occurrence. *)
Lemma set_each_keys (val : string -> option V) (names : list string) :
  forall d : dict V,
    keys (set_each val names d)
    = fold_left add_name (filter (fun n => is_some (val n)) names) (keys d).
Proof.
  induction names as [|n names IH]; intros d; [reflexivity|].
  rewrite set_each_cons, IH. simpl.
  destruct (val n) as [v|]; simpl; [now rewrite keys_set|reflexivity].
Qed.

End Dicts.

Section Names.

Lemma existsb_eqb_In (x : string) (l : list string) :
  existsb (String.eqb x) l = true <-> In x l.
Proof.
  rewrite existsb_exists. split.
  - intros [y [Hy E]]. apply String.eqb_eq in E. now subst.
  - intros H. exists x. split; [exact H|apply String.eqb_refl].
Qed.

Lemma add_names_In (l seen : list string) (x : string) :
  In x (fold_left add_name l seen) <-> In x seen \/ In x l.
Proof.
  revert seen. induction l as [|n l IH]; intros seen; simpl; [tauto|].
  rewrite IH. unfold add_name.
  destruct (existsb (String.eqb n) seen) eqn:E.
  - apply existsb_eqb_In in E. split; [tauto|].
    intros [H|[<-|H]]; tauto.
  - rewrite in_app_iff. simpl. tauto.
Qed.

Lemma NoDup_snoc {A : Type} (l : list A) (x : A) :
  NoDup l -> ~ In x l -> NoDup (l ++ [x]).
Proof.
  induction 1 as [|y l Hy Hl IH]; intros Hx; simpl.
  - constructor; [tauto|constructor].
  - constructor.
    + rewrite in_app_iff. simpl. intros [H|[H|[]]]; [tauto|].
      apply Hx. now left.
    + apply IH. intros H. apply Hx. now right.
Qed.

Lemma add_names_NoDup (l seen : list string) :
  NoDup seen -> NoDup (fold_left add_name l seen).
Proof.
  revert seen. induction l as [|n l IH]; intros seen Hs; simpl; [exact Hs|].
  apply IH. unfold add_name.
  destruct (existsb (String.eqb n) seen) eqn:E; [exact Hs|].
  apply NoDup_snoc; [exact Hs|].
  intros Hin. apply existsb_eqb_In in Hin. congruence.
Qed.

Lemma first_occurrences_In (l : list string) (x : string) :
  In x (first_occurrences l) <-> In x l.
Proof. unfold first_occurrences. rewrite add_names_In. simpl. tauto. Qed.

Lemma first_occurrences_NoDup (l : list string) : NoDup (first_occurrences l).
Proof. apply add_names_NoDup. constructor. Qed.

Lemma flat_map_filter {A B : Type} (p : A -> bool) (f : A -> list B) (l : list A) :
  flat_map (fun x => if p x then f x else []) l = flat_map f (filter p l).
Proof.
  induction l as [|x l IH]; simpl; [reflexivity|].
  destruct (p x); simpl; now rewrite IH.
Qed.

Lemma flat_map_ext_in {A B : Type} (f g : A -> list B) (l : list A) :
  (forall x, In x l -> f x = g x) -> flat_map f l = flat_map g l.
Proof.
  intros H. induction l as [|x l IH]; simpl; [reflexivity|].
  rewrite H by now left. rewrite IH; [reflexivity|].
  intros y Hy. apply H. now right.
Qed.

End Names.

(* ================================================================== *)
(** ** Sheets in the output *)
(* ================================================================== *)

Section Sheets.

Variable wb : Xl.Workbook.
Variables row_start row_end col_start col_end : Z.
Variable sparse : bool.

Local Abbreviation yields := (contributes wb row_start row_end col_start col_end).
Local Abbreviation stored := (collected wb row_start row_end col_start col_end sparse).
Local Abbreviation cells_of := (sheet_cells wb row_start row_end col_start col_end sparse).
Local Abbreviation block := (sheet_block wb row_start row_end col_start col_end sparse).
Local Abbreviation round := (visit wb row_start row_end col_start col_end sparse).
Local Abbreviation reads := (rounds_return wb row_start row_end col_start col_end sparse).

Lemma sheetnames_get (name : string) :
  existsb (String.eqb name) (Xl.sheetnames wb)
  = is_some (dict_get name (Xl.worksheets wb)).
Proof.
  unfold Xl.sheetnames. induction (Xl.worksheets wb) as [|[k ws] d IH]; simpl;
    [reflexivity|].
  rewrite (String.eqb_sym name k). destruct (k =? name)%string; [reflexivity|exact IH].
Qed.

Lemma in_sheetnames (name : string) :
  In name (Xl.sheetnames wb)
  <-> exists sheet, dict_get name (Xl.worksheets wb) = Some sheet.
Proof.
  rewrite <- existsb_eqb_In, sheetnames_get.
  destruct (dict_get name (Xl.worksheets wb)) as [sheet|]; simpl; split;
    try discriminate; eauto.
  intros [sheet H]. discriminate.
Qed.

(** One round of the first loop. *)
Lemma read_excel_collect_step (name : string) (rest : list string)
    (cbs : dict (list (_CellDataOf ColorVal))) :
  read_excel_collect wb (name :: rest) row_start row_end col_start col_end sparse cbs
  = (found <- round name ;;
     read_excel_collect wb rest row_start row_end col_start col_end sparse
       (match found with Some cells => dict_set name cells cbs | None => cbs end)).
Proof.
  cbn [read_excel_collect]. rewrite sheetnames_get. unfold visit, Xl.getitem.
  destruct (dict_get name (Xl.worksheets wb)) as [sheet|]; cbn [is_some negb bind];
    [|reflexivity].
  destruct (Dyn._sheet_range sheet row_start row_end col_start col_end)
    as [[[[r1 r2] c1] c2]|e]; cbn [bind inverted]; [|reflexivity].
  destruct ((r2 <? r1) || (c2 <? c1)); cbn [bind]; [reflexivity|].
  destruct (Dyn._collect_cells sheet r1 r2 c1 c2 sparse); reflexivity.
Qed.

(** The first loop returns when every round does, and then it has stored
    what each round found. *)
Lemma read_excel_collect_ok (names : list string) :
  reads names ->
  forall cbs : dict (list (_CellDataOf ColorVal)),
    read_excel_collect wb names row_start row_end col_start col_end sparse cbs
    = Ok (set_each stored names cbs).
Proof.
  induction names as [|name names IH]; intros Hreads cbs; [reflexivity|].
  rewrite read_excel_collect_step, set_each_cons. unfold collected.
  destruct (Hreads name (or_introl eq_refl)) as [found ->]. cbn [bind].
  apply IH. intros n Hn. apply Hreads. now right.
Qed.

Lemma read_excel_collect_inv (names : list string) :
  forall cbs out : dict (list (_CellDataOf ColorVal)),
    read_excel_collect wb names row_start row_end col_start col_end sparse cbs = Ok out ->
    reads names /\ out = set_each stored names cbs.
Proof.
  induction names as [|name names IH]; intros cbs out.
  - intros H. injection H as <-. split; [intros n []|reflexivity].
  - rewrite read_excel_collect_step, set_each_cons. unfold collected.
    destruct (round name) as [found|e] eqn:Hround; [|discriminate]. cbn [bind].
    intros H. apply IH in H. destruct H as [Hreads ->]. split; [|reflexivity].
    intros n [<-|Hn]; [eauto|now apply Hreads].
Qed.

Lemma stored_lookup (names : list string) (name : string) :
  In name names -> dict_get name (set_each stored names []) = stored name.
Proof.
  intros Hin. rewrite set_each_get.
  apply existsb_eqb_In in Hin. rewrite Hin. now destruct (stored name).
Qed.

(** A round that returns has stored cells exactly for a name that passes
    the guards. *)
Lemma round_yields (name : string) (found : option (list (_CellDataOf ColorVal))) :
  round name = Ok found -> is_some found = yields name.
Proof.
  unfold visit, contributes.
  destruct (dict_get name (Xl.worksheets wb)) as [sheet|];
    [|intros H; now injection H as <-].
  destruct (Dyn._sheet_range sheet row_start row_end col_start col_end)
    as [[[[r1 r2] c1] c2]|e]; cbn [bind]; [|discriminate].
  destruct (inverted (r1, r2, c1, c2)); [intros H; now injection H as <-|].
  destruct (Dyn._collect_cells sheet r1 r2 c1 c2 sparse); cbn [bind]; [|discriminate].
  intros H. now injection H as <-.
Qed.

(** A name that does not pass the guards is skipped without a fault. *)
Lemma skipped_round (name : string) : yields name = false -> round name = Ok None.
Proof.
  unfold visit, contributes.
  destruct (dict_get name (Xl.worksheets wb)) as [sheet|]; [|reflexivity].
  destruct (Dyn._sheet_range sheet row_start row_end col_start col_end)
    as [bounds|e]; cbn [bind]; [|discriminate].
  destruct (inverted bounds); [reflexivity|discriminate].
Qed.

Lemma is_some_stored (names : list string) (name : string) :
  reads names -> In name names -> is_some (stored name) = yields name.
Proof.
  intros Hreads Hin. destruct (Hreads name Hin) as [found Hround].
  unfold collected. rewrite Hround. now apply round_yields.
Qed.

Lemma stored_cells (names : list string) (name : string) :
  reads names -> In name names ->
  stored name = if yields name then Some (cells_of name) else None.
Proof.
  intros Hreads Hin. pose proof (is_some_stored names name Hreads Hin) as H.
  unfold sheet_cells. destruct (stored name); simpl in H; now rewrite <- H.
Qed.

(** The round of a worksheet whose range is not inverted is its
    extraction. *)
Lemma round_of_grid (name : string) (ws : Xl.Worksheet) (r1 r2 c1 c2 : Z) :
  dict_get name (Xl.worksheets wb) = Some (Xl.Grid ws) ->
  _sheet_range ws row_start row_end col_start col_end = (r1, r2, c1, c2) ->
  r1 <= r2 -> c1 <= c2 ->
  yields name = true
  /\ round name = (cells <- _collect_cells ws r1 r2 c1 c2 sparse ;; Ok (Some cells)).
Proof.
  intros Hws Hrange Hr Hc. unfold contributes, visit. rewrite Hws.
  cbn [Dyn._sheet_range bind]. rewrite Hrange. cbn [inverted].
  assert (Hinv : (r2 <? r1) || (c2 <? c1) = false).
  { apply orb_false_iff. rewrite !Z.ltb_ge. tauto. }
  rewrite Hinv. split; reflexivity.
Qed.

Lemma stored_of_valid (names : list string) (name : string) (ws : Xl.Worksheet)
    (r1 r2 c1 c2 : Z) :
  reads names -> In name names ->
  dict_get name (Xl.worksheets wb) = Some (Xl.Grid ws) ->
  _sheet_range ws row_start row_end col_start col_end = (r1, r2, c1, c2) ->
  r1 <= r2 -> c1 <= c2 ->
  yields name = true /\ _collect_cells ws r1 r2 c1 c2 sparse = Ok (cells_of name).
Proof.
  intros Hreads Hin Hws Hrange Hr Hc.
  destruct (round_of_grid name ws r1 r2 c1 c2 Hws Hrange Hr Hc) as [Hy Hround].
  split; [exact Hy|]. unfold sheet_cells, collected.
  destruct (Hreads name Hin) as [found Hfound]. rewrite Hfound.
  rewrite Hround in Hfound.
  destruct (_collect_cells ws r1 r2 c1 c2 sparse) as [cells|e]; [|discriminate].
  cbn [bind] in Hfound. now injection Hfound as <-.
Qed.

(** A name the workbook lacks, or the name of a worksheet whose range is
    inverted, does not pass the guards. *)
Lemma yields_false (name : string) :
  ~ In name (Xl.sheetnames wb)
  \/ (exists (ws : Xl.Worksheet) (r1 r2 c1 c2 : Z),
        dict_get name (Xl.worksheets wb) = Some (Xl.Grid ws)
        /\ _sheet_range ws row_start row_end col_start col_end = (r1, r2, c1, c2)
        /\ (r2 < r1 \/ c2 < c1)) ->
  yields name = false.
Proof.
  unfold contributes. rewrite in_sheetnames.
  intros [H|[ws [r1 [r2 [c1 [c2 [Hws [Hrange Hinv]]]]]]]].
  - destruct (dict_get name (Xl.worksheets wb)); [exfalso; eauto|reflexivity].
  - rewrite Hws. cbn [Dyn._sheet_range]. rewrite Hrange. cbn [inverted].
    apply negb_false_iff. apply orb_true_iff. rewrite !Z.ltb_lt. exact Hinv.
Qed.

Lemma read_excel_json_set_each (fields : Fields)
    (cbs : dict (list (_CellDataOf ColorVal))) (names : list string) :
  forall result : dict json,
    read_excel_json names cbs fields result
    = set_each (fun n => option_map (fun cells => sheet_json cells fields)
                                    (dict_get n cbs)) names result.
Proof.
  induction names as [|name names IH]; intros result; [reflexivity|].
  rewrite set_each_cons. cbn [read_excel_json].
  destruct (dict_get name cbs); apply IH.
Qed.

(** The keys of the structured document: the names that pass the guards,
    each at its first occurrence. *)
Lemma document_keys (fields : Fields) (names : list string) :
  reads names ->
  keys (read_excel_json names (set_each stored names []) fields [])
  = first_occurrences (filter yields names).
Proof.
  intros Hreads. rewrite read_excel_json_set_each, set_each_keys.
  unfold first_occurrences. f_equal. apply filter_ext_in. intros n Hn.
  rewrite (stored_lookup names n Hn), <- (is_some_stored names n Hreads Hn).
  now destruct (stored n).
Qed.

Lemma document_get (fields : Fields) (names : list string) (name : string) :
  reads names ->
  dict_get name (read_excel_json names (set_each stored names []) fields [])
  = if existsb (String.eqb name) names && yields name
    then Some (sheet_json (cells_of name) fields)
    else None.
Proof.
  intros Hreads. rewrite read_excel_json_set_each, set_each_get.
  destruct (existsb (String.eqb name) names) eqn:Hin; [|reflexivity].
  apply existsb_eqb_In in Hin.
  rewrite (stored_lookup names name Hin), (stored_cells names name Hreads Hin).
  now destruct (yields name).
Qed.

(** The lines of a sheet are written when the line of each of its cells
    is. *)
Lemma sheet_lines_inv (fields : Fields) (name : string)
    (cells : list (_CellDataOf ColorVal)) (lines : list string) :
  sheet_lines name cells fields = Ok lines ->
  lines = header name :: map (line_text fields) cells
  /\ Forall (fun cell => cell_line cell fields = Ok (line_text fields cell)) cells.
Proof.
  unfold sheet_lines.
  destruct (map_result (fun cell => cell_line cell fields) cells) as [ls|e] eqn:Hmap;
    [|discriminate].
  cbn [bind]. intros H. injection H as <-. apply map_result_inv in Hmap.
  assert (Hall : ls = map (line_text fields) cells
                 /\ Forall (fun cell => cell_line cell fields
                                        = Ok (line_text fields cell)) cells).
  { induction Hmap as [|cell line cells ls Hcell _ [IH1 IH2]];
      [split; [reflexivity|constructor]|].
    assert (Hline : line_text fields cell = line) by (unfold line_text; now rewrite Hcell).
    split; [simpl; now rewrite Hline, IH1|].
    constructor; [now rewrite Hline|exact IH2]. }
  destruct Hall as [-> Hall]. split; [reflexivity|exact Hall].
Qed.

Lemma sheet_lines_ok (fields : Fields) (name : string)
    (cells : list (_CellDataOf ColorVal)) :
  (forall cell, In cell cells -> exists line, cell_line cell fields = Ok line) ->
  sheet_lines name cells fields = Ok (header name :: map (line_text fields) cells).
Proof.
  intros Hall. unfold sheet_lines.
  rewrite (map_result_all_ok _ (line_text fields)); [reflexivity|].
  intros cell Hin. destruct (Hall cell Hin) as [line Hline].
  unfold line_text. now rewrite Hline.
Qed.

(** When the text loop returns, it has written the block of each stored
    name at each of its occurrences, and every cell line could be
    written. *)
Lemma read_excel_text_inv (fields : Fields) (cbs : dict (list (_CellDataOf ColorVal)))
    (names : list string) :
  forall lines out : list string,
    read_excel_text names cbs fields lines = Ok out ->
    out = lines ++ flat_map (fun n => match dict_get n cbs with
                                      | Some cells =>
                                          header n :: map (line_text fields) cells
                                      | None => []
                                      end) names
    /\ forall n cells, In n names -> dict_get n cbs = Some cells ->
         Forall (fun cell => cell_line cell fields = Ok (line_text fields cell)) cells.
Proof.
  induction names as [|name names IH]; intros lines out; cbn [read_excel_text flat_map].
  - intros H. injection H as <-. split; [now rewrite app_nil_r|intros ? ? []].
  - destruct (dict_get name cbs) as [cells|] eqn:Hget.
    + destruct (sheet_lines name cells fields) as [b|e] eqn:Hb; [|discriminate].
      cbn [bind]. intros H. apply IH in H. destruct H as [-> Hrest].
      apply sheet_lines_inv in Hb. destruct Hb as [-> Hcells].
      split; [now rewrite <- app_assoc|].
      intros n cs [<-|Hn] Hcs; [|now apply (Hrest n)].
      rewrite Hget in Hcs. now injection Hcs as <-.
    + intros H. apply IH in H. destruct H as [-> Hrest]. split; [reflexivity|].
      intros n cs [<-|Hn] Hcs; [congruence|now apply (Hrest n)].
Qed.

Lemma read_excel_text_ok (fields : Fields) (cbs : dict (list (_CellDataOf ColorVal)))
    (names : list string) :
  (forall n cells cell, In n names -> dict_get n cbs = Some cells -> In cell cells ->
                        exists line, cell_line cell fields = Ok line) ->
  forall lines : list string,
  exists out, read_excel_text names cbs fields lines = Ok out.
Proof.
  induction names as [|name names IH]; intros Hall lines; cbn [read_excel_text];
    [eauto|].
  assert (Hrest : forall n cells cell, In n names -> dict_get n cbs = Some cells ->
                    In cell cells -> exists line, cell_line cell fields = Ok line).
  { intros n cells cell Hn. apply Hall. now right. }
  destruct (dict_get name cbs) as [cells|] eqn:Hget; [|now apply IH].
  rewrite sheet_lines_ok; [cbn [bind]; now apply IH|].
  intros cell Hin. apply (Hall name cells cell); auto. now left.
Qed.

(** The lines of the text: the block of each name that passes the guards,
    at each of its occurrences. *)
Lemma lines_blocks (fields : Fields) (names : list string) (lines : list string) :
  reads names ->
  read_excel_text names (set_each stored names []) fields [] = Ok lines ->
  lines = flat_map (block fields) (filter yields names)
  /\ forall n cell, In n names -> yields n = true -> In cell (cells_of n) ->
       cell_line cell fields = Ok (line_text fields cell).
Proof.
  intros Hreads H. apply read_excel_text_inv in H. destruct H as [-> Hcells].
  cbn [app]. split.
  - rewrite <- flat_map_filter. apply flat_map_ext_in. intros n Hn.
    rewrite (stored_lookup names n Hn), (stored_cells names n Hreads Hn).
    now destruct (yields n).
  - intros n cell Hn Hy Hin.
    assert (Hget : dict_get n (set_each stored names []) = Some (cells_of n)).
    { now rewrite (stored_lookup names n Hn), (stored_cells names n Hreads Hn), Hy. }
    pose proof (Hcells n _ Hn Hget) as Hall. rewrite Forall_forall in Hall.
    now apply Hall.
Qed.

Lemma dyn_parts_head (cell : _CellDataOf ColorVal) (fields : Fields)
    (parts : list string) :
  Dyn._cell_to_text_parts cell fields = Ok parts ->
  exists rest : list string, parts = "c" :: str_int (row cell) :: rest.
Proof.
  unfold Dyn._cell_to_text_parts.
  destruct fields as [[] [] [] [] [] [] []]; cbn [fv fb fn fz fc fg ff app];
    destruct (Dyn._esc (font_color cell)), (Dyn._esc (fill_color cell));
    cbn [bind app]; intros H; try discriminate; injection H as <-; eauto.
Qed.

(** No cell line is a header line: the first starts with c, the second
    with >. *)
Lemma line_text_not_header (cell : _CellDataOf ColorVal) (fields : Fields)
    (name : string) :
  line_text fields cell <> header name.
Proof.
  unfold line_text, cell_line.
  destruct (Dyn._cell_to_text_parts cell fields) as [parts|e] eqn:Hparts;
    cbn [bind]; [|discriminate].
  destruct (dyn_parts_head cell fields parts Hparts) as [rest ->]. discriminate.
Qed.

Lemma header_inj (a b : string) : header a = header b -> a = b.
Proof. unfold header. intros H. injection H as H. now apply _esc_inj. Qed.

Lemma header_in_block (fields : Fields) (name n : string) :
  In (header name) (block fields n) -> n = name.
Proof.
  intros [H|H].
  - now apply header_inj.
  - apply in_map_iff in H. destruct H as [cell [E _]].
    now apply line_text_not_header in E.
Qed.

Lemma count_header_block (fields : Fields) (name n : string) :
  count (header name) (block fields n) = if string_dec n name then 1%nat else 0%nat.
Proof.
  unfold count, sheet_block. cbn [count_occ].
  assert (Hnone : count_occ string_dec (map (line_text fields) (cells_of n)) (header name)
                  = 0%nat).
  { apply count_occ_not_In. intros H. apply in_map_iff in H.
    destruct H as [cell [E _]]. now apply line_text_not_header in E. }
  rewrite Hnone.
  destruct (string_dec (header n) (header name)) as [E|E], (string_dec n name) as [E'|E'];
    try reflexivity.
  - apply header_inj in E. contradiction.
  - subst. contradiction.
Qed.

Lemma count_header_blocks (fields : Fields) (name : string) (l : list string) :
  count (header name) (flat_map (block fields) l) = count name l.
Proof.
  induction l as [|n l IH]; [reflexivity|].
  cbn [flat_map]. unfold count in *. rewrite count_occ_app, IH.
  fold (count (header name) (block fields n)).
  rewrite count_header_block. cbn [count_occ].
  destruct (string_dec n name); reflexivity.
Qed.

Lemma count_filter (p : string -> bool) (name : string) (l : list string) :
  p name = true -> count name (filter p l) = count name l.
Proof.
  intros Hp. unfold count. induction l as [|n l IH]; [reflexivity|].
  cbn [filter count_occ]. destruct (string_dec n name) as [->|Hne].
  - rewrite Hp. cbn [count_occ]. destruct (string_dec name name); [|contradiction].
    now rewrite IH.
  - destruct (p n); [|exact IH]. cbn [count_occ].
    destruct (string_dec n name); [contradiction|exact IH].
Qed.

End Sheets.

(* ================================================================== *)
(** ** Which sheets appear, and how often *)
(* ================================================================== *)

Section Presence.

Variable wb : Xl.Workbook.
Variables out sheets : string.
Variables row_start row_end col_start col_end : Z.
Variable sparse : bool.

Local Abbreviation yields := (contributes wb row_start row_end col_start col_end).
Local Abbreviation names := (requested_names wb sheets).
Local Abbreviation fields := (_parse_out out).
Local Abbreviation cells_of := (sheet_cells wb row_start row_end col_start col_end sparse).
Local Abbreviation block :=
  (sheet_block wb row_start row_end col_start col_end sparse fields).
Local Abbreviation document :=
  (read_excel_json names
     (set_each (collected wb row_start row_end col_start col_end sparse) names [])
     fields []).

(** What a call that returns has done: every round of the first loop
    returned, and the text is the serialized document or the joined
    lines. *)
Lemma read_workbook_inv (fmt text : string) :
  read_workbook wb out fmt sheets row_start row_end col_start col_end sparse = Ok text ->
  rounds_return wb row_start row_end col_start col_end sparse names
  /\ structured_document wb out sheets row_start row_end col_start col_end sparse
     = Ok document
  /\ ((starts_with_j fmt = true /\ dumps (JObj document) = Ok text)
      \/ (starts_with_j fmt = false
          /\ exists lines : list string,
               text_lines wb out sheets row_start row_end col_start col_end sparse
               = Ok lines
               /\ read_excel_text names
                    (set_each (collected wb row_start row_end col_start col_end sparse)
                              names [])
                    fields [] = Ok lines
               /\ text = join (String LF "") lines)).
Proof.
  unfold read_workbook, structured_document, text_lines. fold names.
  rewrite fmt_char_j.
  destruct (read_excel_collect wb names row_start row_end col_start col_end sparse [])
    as [cbs|e] eqn:Hcollect; [|discriminate].
  apply read_excel_collect_inv in Hcollect. destruct Hcollect as [Hreads ->].
  cbn [bind]. intros H. split; [exact Hreads|]. split; [reflexivity|].
  destruct (starts_with_j fmt); [left; now split|right; split; [reflexivity|]].
  destruct (read_excel_text names _ fields []) as [lines|e] eqn:Hlines; [|discriminate].
  cbn [bind] in H. injection H as <-. exists lines. repeat split.
Qed.


(** C10, amended.  Of a call that returns: when a name is requested more
    than once and names a worksheet of the workbook whose resolved range
    is not inverted, the structured document the call serializes has
    exactly one entry for it, while the text it joins has the sheet's
    block, header and cell lines, once per occurrence: the header line
    occurs as often as the name was requested. *)
Theorem repeated_sheet_name (fmt text name : string) (ws : Xl.Worksheet)
    (r1 r2 c1 c2 : Z) :
  read_workbook wb out fmt sheets row_start row_end col_start col_end sparse = Ok text ->
  (2 <= count name (parse_sheets sheets))%nat ->
  dict_get name (Xl.worksheets wb) = Some (Xl.Grid ws) ->
  _sheet_range ws row_start row_end col_start col_end = (r1, r2, c1, c2) ->
  r1 <= r2 -> c1 <= c2 ->
  exists cells : list (_CellDataOf ColorVal),
    _collect_cells ws r1 r2 c1 c2 sparse = Ok cells
    /\ ((starts_with_j fmt = true
         /\ exists doc : dict json,
              dumps (JObj doc) = Ok text
              /\ count name (keys doc) = 1%nat
              /\ dict_get name doc = Some (sheet_json cells fields))
        \/ (starts_with_j fmt = false
            /\ exists (lines cell_lines : list string),
                 text = join (String LF "") lines
                 /\ map_result (fun cell => cell_line cell fields) cells = Ok cell_lines
                 /\ lines = flat_map block (filter yields (parse_sheets sheets))
                 /\ block name = header name :: cell_lines
                 /\ count name (filter yields (parse_sheets sheets))
                    = count name (parse_sheets sheets)
                 /\ count (header name) lines = count name (parse_sheets sheets))).
Proof.
  intros Hcall Hcount Hws Hrange Hr Hc.
  assert (Hnames : names = parse_sheets sheets).
  { unfold requested_names, sheet_names_or.
    destruct (parse_sheets sheets); [|reflexivity]. cbn in Hcount. lia. }
  assert (Hin : In name names).
  { rewrite Hnames. apply (count_occ_In string_dec). unfold count in Hcount. lia. }
  apply read_workbook_inv in Hcall.
  destruct Hcall as [Hreads Hcall].
  destruct (stored_of_valid wb _ _ _ _ sparse names name ws r1 r2 c1 c2
              Hreads Hin Hws Hrange Hr Hc) as [Hy Hcells].
  exists (cells_of name). split; [exact Hcells|].
  destruct Hcall as [_ [[Hj Hdumps]|[Hj [lines [_ [Htext ->]]]]]].
  - left. split; [exact Hj|]. exists document. split; [exact Hdumps|]. split.
    + rewrite document_keys by exact Hreads. unfold count.
      apply NoDup_count_occ'; [apply first_occurrences_NoDup|].
      apply first_occurrences_In, filter_In. tauto.
    + rewrite document_get by exact Hreads. rewrite Hy.
      apply existsb_eqb_In in Hin. now rewrite Hin.
  - right. split; [exact Hj|].
    destruct (lines_blocks wb _ _ _ _ sparse fields names lines Hreads Htext)
      as [Hlines Hwritten].
    exists lines, (map (line_text fields) (cells_of name)).
    split; [reflexivity|]. split.
    { apply map_result_all_ok. intros cell Hcell. now apply (Hwritten name). }
    split; [now rewrite <- Hnames|]. split; [reflexivity|].
    split; [now apply count_filter|].
    rewrite Hlines, count_header_blocks, Hnames. now apply count_filter.
Qed.

End Presence.


Lemma repeated_sheet_name_witness :
  exists lines : list string,
    read_workbook Sample.book "" "t" "Mixed, Sheet1 ,Mixed" 0 0 0 0 true
    = Ok (join (String LF "") lines)
    /\ count ">Mixed" lines = 2%nat.
Proof.
  destruct (read_workbook Sample.book "" "t" "Mixed, Sheet1 ,Mixed" 0 0 0 0 true)
    as [text|e] eqn:Hcall; [|vm_compute in Hcall; discriminate Hcall].
  destruct (repeated_sheet_name Sample.book "" "Mixed, Sheet1 ,Mixed" 0 0 0 0 true
              "t" text "Mixed" Sample.mixed 1 2 1 3 Hcall)
    as [cells [_ [[Hj _]|[_ [lines [cell_lines [-> [_ [_ [_ [_ Hheader]]]]]]]]]]].
  - vm_compute. lia.
  - reflexivity.
  - reflexivity.
  - lia.
  - lia.
  - discriminate Hj.
  - exists lines. split; [reflexivity|exact Hheader].
Defined.

(** C10 as stated fails when the range is inverted: the name is listed
    twice and the workbook has the sheet, yet with rows 3 to 1 the call
    returns a structured document with no entry for it and a text with no
    line. *)
Lemma repeated_name_inverted_range :
  count "Mixed" (parse_sheets "Mixed,Mixed") = 2%nat
  /\ In "Mixed" (Xl.sheetnames Sample.book)
  /\ read_workbook Sample.book "vb" "j" "Mixed,Mixed" 3 1 0 0 true = Ok "{}"
  /\ read_workbook Sample.book "vb" "t" "Mixed,Mixed" 3 1 0 0 true = Ok "".
Proof.
  split; [reflexivity|]. split; [simpl; tauto|]. split; vm_compute; reflexivity.
Qed.

(** A requested name the workbook lacks is skipped, and a sheet whose
    cells are all blank is present with an empty cell list. *)
Example blank_sheet_is_present :
  structured_document Sample.book "vb" "Nope,Blank" 0 0 0 0 true
  = Ok [("Blank", JObj [("cells", JArr [])])]
  /\ text_lines Sample.book "vb" "Nope,Blank" 0 0 0 0 true = Ok [">Blank"].
Proof. split; vm_compute; reflexivity. Qed.

(* ================================================================== *)
(** ** Worked examples *)
(* ================================================================== *)

Section Examples.

(** Formula detection: a string that starts with [=] is a formula, a number
    or any other string is not. *)
Example formula_detection (fill : ColorVal) :
  is_formula (make_cell 1 1 (Sample.mk (PyStr "=SUM(A1:A2)") Sample.plain) fill) = true
  /\ is_formula (make_cell 1 1 (Sample.mk (PyStr "=5") Sample.plain) fill) = true
  /\ is_formula (make_cell 1 1 (Sample.mk (PyInt 5) Sample.plain) fill) = false
  /\ is_formula (make_cell 1 1 (Sample.mk (PyStr "A5 test") Sample.plain) fill) = false.
Proof. repeat split. Qed.

(** The people sheet with [out="vb"], structured. *)
Example people_structured :
  structured_document Sample.book "vb" "Sheet1" 0 0 0 0 true
  = Ok [("Sheet1",
         JObj [("cells",
                JArr [JObj [("row", JInt 1); ("col", JInt 1);
                            ("value", JStr "Name"); ("bold", JBool true)];
                      JObj [("row", JInt 1); ("col", JInt 2);
                            ("value", JStr "Age"); ("bold", JBool false)];
                      JObj [("row", JInt 2); ("col", JInt 1);
                            ("value", JStr "Amy"); ("bold", JBool false)];
                      JObj [("row", JInt 2); ("col", JInt 2);
                            ("value", JStr "30"); ("bold", JBool false)]])])].
Proof. vm_compute. reflexivity. Qed.

(** The same call as text. *)
Example people_text :
  Read.read_excel Sample.env "/data/book.xlsx" "vb" "t" "Sheet1" 0 0 0 0 true
  = Ok (join (String LF "")
          [">Sheet1";
           join (String TAB "") ["c"; "1"; "1"; "Name"; "1"];
           join (String TAB "") ["c"; "1"; "2"; "Age"; "0"];
           join (String TAB "") ["c"; "2"; "1"; "Amy"; "0"];
           join (String TAB "") ["c"; "2"; "2"; "30"; "0"]]).
Proof. vm_compute. reflexivity. Qed.

(** The serialized form of a small document. *)
Example dumps_sample :
  dumps (JObj [("k", JArr [JInt 1; JNull; JBool true; JStr "a"])])
  = Ok ("{" ++ QUOTE ++ "k" ++ QUOTE ++ ": [1, null, true, " ++ QUOTE ++ "a" ++ QUOTE ++ "]}")%string.
Proof. reflexivity. Qed.

(** Case folding and whitespace on characters above 127. *)
Example latin1_characters :
  lower_char (ascii_of_N 201) = ascii_of_N 233
  /\ lower_char (ascii_of_N 215) = ascii_of_N 215
  /\ _is_blank (PyStr (String (ascii_of_N 160) " ")) = true.
Proof. repeat split. Qed.

(** A colour taken from the theme: the call raises in either encoding when
    the font colour is selected, and returns when it is not. *)
Example theme_colour :
  read_workbook Sample.styled "vc" "j" "Titled" 0 0 0 0 true
  = Raise (TypeError "Object of type RGB is not JSON serializable")
  /\ read_workbook Sample.styled "vc" "t" "Titled" 0 0 0 0 true
     = Raise (AttributeError "replace")
  /\ read_workbook Sample.styled "v" "t" "Titled" 0 0 0 0 true
     = Ok (join (String LF "") [">Titled"; join (String TAB "") ["c"; "1"; "1"; "Title"]]).
Proof. repeat split; vm_compute; reflexivity. Qed.

(** A chart sheet: the call raises when the sheet is asked for its used
    range, and no name given means every sheet, this one too. *)
Example chart_sheet :
  read_workbook Sample.styled "v" "j" "Figures" 0 0 0 0 true
  = Raise (AttributeError "min_row")
  /\ read_workbook Sample.styled "v" "j" "Figures" 1 1 1 1 true
     = Raise (AttributeError "cell")
  /\ read_workbook Sample.styled "v" "j" "Titled,Blank" 0 0 0 0 true
     = dumps (JObj [("Titled",
                     JObj [("cells",
                            JArr [JObj [("row", JInt 1); ("col", JInt 1);
                                        ("value", JStr "Title")]])]);
                    ("Blank", JObj [("cells", JArr [])])]).
Proof. repeat split; vm_compute; reflexivity. Qed.

End Examples.

(* ================================================================== *)
(** ** Reading the delimited text back *)
(* ================================================================== *)

Section Decoding.

Lemma split_no_sep (sep : ascii) (s : string) :
  contains sep s = false -> split sep s = [s].
Proof.
  induction s as [|c s IH]; [reflexivity|].
  simpl. intros H. apply orb_false_iff in H. destruct H as [Hc Hs].
  rewrite Hc, (IH Hs). reflexivity.
Qed.

Lemma split_app (sep : ascii) (a b : string) :
  contains sep a = false ->
  split sep (a ++ String sep b) = a :: split sep b.
Proof.
  induction a as [|c a IH]; simpl.
  - intros _. now rewrite Ascii.eqb_refl.
  - intros H. apply orb_false_iff in H. destruct H as [Hc Ha].
    rewrite Hc, (IH Ha). reflexivity.
Qed.

Lemma join_cons (sep x y : string) (l : list string) :
  join sep (x :: y :: l) = (x ++ sep ++ join sep (y :: l))%string.
Proof. reflexivity. Qed.

(** Splitting a joined list gives the list back when no part holds the
    separator. *)
Lemma split_join (sep : ascii) (parts : list string) :
  parts <> [] ->
  Forall (fun p => contains sep p = false) parts ->
  split sep (join (String sep "") parts) = parts.
Proof.
  induction parts as [|x parts IH]; [congruence|].
  intros _ Hall. inversion Hall as [|? ? Hx Hrest]; subst.
  destruct parts as [|y parts]; [now apply split_no_sep|].
  rewrite join_cons. cbn [append]. rewrite (split_app _ _ _ Hx).
  rewrite IH; [reflexivity|discriminate|exact Hrest].
Qed.

Lemma contains_join (x : ascii) (sep : string) (parts : list string) :
  contains x sep = false ->
  Forall (fun p => contains x p = false) parts ->
  contains x (join sep parts) = false.
Proof.
  intros Hsep. induction parts as [|p parts IH]; intros Hall; [reflexivity|].
  inversion Hall as [|? ? Hp Hrest]; subst.
  destruct parts as [|q parts]; [exact Hp|].
  rewrite join_cons, !contains_app, Hp, Hsep, (IH Hrest). reflexivity.
Qed.

Lemma digits_clean (x : ascii) (d : Decimal.uint) :
  x = TAB \/ x = CR \/ x = LF -> contains x (NilEmpty.string_of_uint d) = false.
Proof.
  intros Hx. induction d; simpl; [reflexivity|..]; rewrite IHd;
    destruct Hx as [->|[->| ->]]; reflexivity.
Qed.

(** The decimal text of an integer has no tab, carriage return or line
    feed. *)
Lemma str_int_clean (x : ascii) (n : Z) :
  x = TAB \/ x = CR \/ x = LF -> contains x (str_int n) = false.
Proof.
  intros Hx. unfold str_int, NilZero.string_of_int.
  assert (Hu : forall d, contains x (NilZero.string_of_uint d) = false).
  { intros d. unfold NilZero.string_of_uint.
    destruct d; try apply (digits_clean x _ Hx).
    destruct Hx as [->|[->| ->]]; reflexivity. }
  destruct (Z.to_int n) as [d|d]; [apply Hu|].
  simpl. rewrite Hu. destruct Hx as [->|[->| ->]]; reflexivity.
Qed.

Lemma _esc_clean (x : ascii) (s : string) :
  x = TAB \/ x = CR \/ x = LF -> contains x (_esc s) = false.
Proof. intros Hx. rewrite _esc_chars. now apply esc_chars_clean. Qed.

Lemma text_parts_tokens (cell : _CellData) (fields : Fields) :
  _cell_to_text_parts cell fields = text_tokens cell fields.
Proof.
  unfold text_tokens. destruct fields as [[] [] [] [] [] [] []]; reflexivity.
Qed.

(** Every token of a cell is free of the character [x] when the text of
    its font size is, or when the size is not selected. *)
Lemma text_tokens_clean (x : ascii) (cell : _CellData) (fields : Fields) :
  x = TAB \/ x = CR \/ x = LF ->
  (fz fields = true -> contains x (str (font_size cell)) = false) ->
  Forall (fun p => contains x p = false) (_cell_to_text_parts cell fields).
Proof.
  intros Hx Hsize. rewrite text_parts_tokens. unfold text_tokens.
  constructor; [destruct Hx as [->|[->| ->]]; reflexivity|].
  constructor; [now apply str_int_clean|].
  constructor; [now apply str_int_clean|].
  apply Forall_forall. intros tok Hin. apply in_map_iff in Hin.
  destruct Hin as [key [<- Hkey]].
  assert (Hflag : forall b : bool, contains x (if b then "1" else "0") = false).
  { intros []; destruct Hx as [->|[->| ->]]; reflexivity. }
  unfold text_field_keys in Hkey.
  repeat (apply in_app_or in Hkey; destruct Hkey as [Hkey|Hkey]).
  - destruct (fv fields); [|contradiction]. destruct Hkey as [<-|[]].
    now apply _esc_clean.
  - destruct (ff fields); [|contradiction]. destruct Hkey as [<-|[]]. apply Hflag.
  - destruct (fb fields); [|contradiction]. destruct Hkey as [<-|[]]. apply Hflag.
  - destruct (fn fields); [|contradiction]. destruct Hkey as [<-|[]].
    now apply _esc_clean.
  - destruct (fz fields); [|contradiction]. destruct Hkey as [<-|[]].
    cbn. destruct (truthy (font_size cell)); [now apply Hsize|reflexivity].
  - destruct (fc fields); [|contradiction]. destruct Hkey as [<-|[]].
    now apply _esc_clean.
  - destruct (fg fields); [|contradiction]. destruct Hkey as [<-|[]].
    now apply _esc_clean.
Qed.

(** X1.  A cell line splits on the tab into exactly the tokens it was
    joined from, provided the text of the font size holds no tab when the
    size is selected (no other token can hold one); and when the value is
    selected, unescaping the fourth token gives the cell's value back. *)
Theorem cell_line_round_trip (cell : _CellData) (fields : Fields) :
  (fz fields = true -> contains TAB (str (font_size cell)) = false) ->
  split TAB (join (String TAB "") (_cell_to_text_parts cell fields))
  = _cell_to_text_parts cell fields
  /\ (fv fields = true ->
      unescape (nth 3 (split TAB (join (String TAB "")
                                      (_cell_to_text_parts cell fields))) "")
      = value cell).
Proof.
  intros Hsize.
  assert (Hsplit : split TAB (join (String TAB "") (_cell_to_text_parts cell fields))
                   = _cell_to_text_parts cell fields).
  { apply split_join.
    - rewrite text_parts_tokens. discriminate.
    - apply text_tokens_clean; auto. }
  split; [exact Hsplit|].
  intros Hv. rewrite Hsplit, text_parts_tokens. unfold text_tokens, text_field_keys.
  rewrite Hv. cbn. apply unescape__esc.
Qed.

Lemma cell_line_round_trip_witness :
  split TAB (join (String TAB "") (_cell_to_text_parts Sample.age (_parse_out "vz")))
  = ["c"; "1"; "2"; "Age"; "11.0"].
Proof.
  refine (eq_trans (proj1 (cell_line_round_trip Sample.age (_parse_out "vz") _)) _).
  - intros _. reflexivity.
  - reflexivity.
Defined.

(** X18.  The number of tokens of a cell line depends on the selected fields
    alone, so all the cell lines of one call have the same number of
    columns; the structured projection starts with [row] and [col] and has
    no key twice. *)
Theorem projections_are_regular (cell other : _CellData) (fields : Fields) :
  length (_cell_to_text_parts cell fields) = (3 + length (text_field_keys fields))%nat
  /\ length (_cell_to_text_parts cell fields) = length (_cell_to_text_parts other fields)
  /\ firstn 2 (keys (_cell_to_json cell fields)) = ["row"; "col"]
  /\ NoDup (keys (_cell_to_json cell fields)).
Proof.
  rewrite !text_parts_tokens. unfold text_tokens. cbn [length]. rewrite !length_map.
  split; [reflexivity|]. split; [reflexivity|].
  destruct cell as [r c v isf b fnm fsz fcl fil].
  destruct fields as [[] [] [] [] [] [] []]; destruct isf; (split; [reflexivity|]);
    cbv [keys _cell_to_json dict_set map fst String.eqb Ascii.eqb Bool.eqb
         fv fb fn fz fc fg ff is_formula row col value bold font_name font_size
         font_color fill_color andb];
    repeat (constructor;
            [simpl; intros H;
             repeat (destruct H as [H|H]; [discriminate H|]); exact H|]);
    constructor.
Qed.

End Decoding.

(* ================================================================== *)
(** ** The whole output *)
(* ================================================================== *)

Section Output.

Variable wb : Xl.Workbook.
Variables row_start row_end col_start col_end : Z.

Local Abbreviation yields := (contributes wb row_start row_end col_start col_end).

Lemma header_clean (x : ascii) (name : string) :
  x = TAB \/ x = CR \/ x = LF -> contains x (header name) = false.
Proof.
  intros Hx. unfold header. cbn [append contains].
  rewrite (_esc_clean x name Hx). destruct Hx as [->|[->| ->]]; reflexivity.
Qed.

(** The tokens of a cell line that could be written are those of the
    record at its declared type. *)
Lemma dyn_parts_declared (cell : _CellDataOf ColorVal) (fields : Fields)
    (parts : list string) :
  Dyn._cell_to_text_parts cell fields = Ok parts ->
  parts = _cell_to_text_parts (declared cell) fields.
Proof.
  unfold Dyn._cell_to_text_parts, _cell_to_text_parts, declared.
  cbn [row col value is_formula bold font_name font_size font_color fill_color].
  destruct fields as [[] [] [] [] [] [] []]; cbn [fv fb fn fz fc fg ff app];
    destruct (font_color cell), (fill_color cell);
    cbn [Dyn._esc str_of bind app]; intros H; try discriminate H;
    now injection H as <-.
Qed.

Lemma line_text_clean (cell : _CellDataOf ColorVal) (fields : Fields) :
  fz fields = false -> contains LF (line_text fields cell) = false.
Proof.
  intros Hz. unfold line_text, cell_line.
  destruct (Dyn._cell_to_text_parts cell fields) as [parts|e] eqn:Hparts;
    cbn [bind]; [|reflexivity].
  apply dyn_parts_declared in Hparts. subst parts.
  apply contains_join; [reflexivity|].
  apply text_tokens_clean; [auto|]. rewrite Hz. discriminate.
Qed.

Lemma sheet_block_clean (name : string) (sparse : bool) (fields : Fields) :
  fz fields = false ->
  Forall (fun line => contains LF line = false)
         (sheet_block wb row_start row_end col_start col_end sparse fields name).
Proof.
  intros Hz. unfold sheet_block. constructor.
  - apply header_clean. auto.
  - apply Forall_forall. intros line Hin. apply in_map_iff in Hin.
    destruct Hin as [cell [<- _]]. now apply line_text_clean.
Qed.

Lemma join_starts (sep : string) (c : ascii) (s : string) (l : list string) :
  exists t : string, join sep (String c s :: l) = String c t.
Proof.
  destruct l as [|y l]; [now exists s|].
  rewrite join_cons. cbn [append]. eauto.
Qed.

Lemma dumps_object_starts (doc : dict json) (text : string) :
  dumps (JObj doc) = Ok text -> exists rest : string, text = String "{" rest.
Proof.
  cbn [dumps]. destruct (map_result _ doc) as [texts|e]; cbn [bind]; [|discriminate].
  intros H. injection H as <-. cbn [append]. eauto.
Qed.

(** X2.  Of a call that returns the delimited text with the font size not
    selected: no line of the text holds a raw line feed, so a non-empty
    text splits on the line feed into exactly the lines it was joined
    from, the header and the cell lines of each sheet. *)
Theorem text_round_trip (out fmt sheets : string) (sparse : bool) (text : string) :
  fz (_parse_out out) = false ->
  starts_with_j fmt = false ->
  read_workbook wb out fmt sheets row_start row_end col_start col_end sparse = Ok text ->
  exists lines : list string,
    text = join (String LF "") lines
    /\ lines
       = flat_map (sheet_block wb row_start row_end col_start col_end sparse
                     (_parse_out out))
                  (filter yields (requested_names wb sheets))
    /\ Forall (fun line => contains LF line = false) lines
    /\ (lines <> [] -> split LF text = lines).
Proof.
  intros Hz Hfmt Hcall. apply read_workbook_inv in Hcall.
  destruct Hcall as [Hreads [_ [[Hj _]|[_ [lines [_ [Htext ->]]]]]]]; [congruence|].
  apply lines_blocks in Htext; [|exact Hreads]. destruct Htext as [Hlines _].
  exists lines. split; [reflexivity|]. split; [exact Hlines|].
  assert (Hclean : Forall (fun line => contains LF line = false) lines).
  { rewrite Hlines. apply Forall_flat_map, Forall_forall. intros n _.
    now apply sheet_block_clean. }
  split; [exact Hclean|]. intros Hne. now apply split_join.
Qed.

(** X3.  The text a call returns is empty or starts with an opening brace
    (structured) or with [>] (delimited text), so it is never the message
    the facade returns for a missing file. *)
Theorem output_is_never_the_error_message (out fmt sheets : string) (sparse : bool)
    (text : string) :
  read_workbook wb out fmt sheets row_start row_end col_start col_end sparse = Ok text ->
  (text = "" \/ exists rest : string, text = String "{" rest \/ text = String ">" rest)
  /\ forall filepath : string, text <> ("error: file not found: " ++ filepath)%string.
Proof.
  intros Hcall.
  assert (Hcases : text = ""
                   \/ exists rest, text = String "{" rest \/ text = String ">" rest).
  { apply read_workbook_inv in Hcall.
    destruct Hcall as [Hreads [_ [[_ Hdumps]|[_ [lines [_ [Htext ->]]]]]]].
    - right. apply dumps_object_starts in Hdumps. destruct Hdumps as [rest ->].
      exists rest. now left.
    - apply lines_blocks in Htext; [|exact Hreads]. destruct Htext as [-> _].
      destruct (filter yields (requested_names wb sheets)) as [|n l]; [now left|].
      right. cbn [flat_map]. unfold sheet_block at 1, header. cbn [append app].
      destruct (join_starts (String LF "") ">" (_esc n)
                  (map (line_text (_parse_out out))
                       (sheet_cells wb row_start row_end col_start col_end sparse n)
                   ++ flat_map (sheet_block wb row_start row_end col_start col_end sparse
                                  (_parse_out out)) l)) as [t Ht].
      exists t. right. exact Ht. }
  split; [exact Hcases|]. intros filepath.
  destruct Hcases as [->|[rest [->| ->]]]; discriminate.
Qed.

(** X4.  Which sheets appear does not depend on [sparse] nor on the
    selected fields: two calls that differ only in them and both produce
    their structured document produce documents with the same keys in the
    same order, and these are the documents [read_excel] serializes. *)
Theorem sheets_do_not_depend_on_fields (out out' sheets : string) (sparse sparse' : bool)
    (doc doc' : dict json) :
  structured_document wb out sheets row_start row_end col_start col_end sparse = Ok doc ->
  structured_document wb out' sheets row_start row_end col_start col_end sparse'
  = Ok doc' ->
  keys doc = keys doc'
  /\ read_workbook wb out "j" sheets row_start row_end col_start col_end sparse
     = dumps (JObj doc)
  /\ read_workbook wb out' "j" sheets row_start row_end col_start col_end sparse'
     = dumps (JObj doc').
Proof.
  unfold structured_document, read_workbook. fold (requested_names wb sheets).
  destruct (read_excel_collect wb (requested_names wb sheets) row_start row_end
              col_start col_end sparse []) as [cbs|e] eqn:Hcbs; [|discriminate].
  destruct (read_excel_collect wb (requested_names wb sheets) row_start row_end
              col_start col_end sparse' []) as [cbs'|e'] eqn:Hcbs'; [|discriminate].
  cbn [bind]. intros H H'. injection H as <-. injection H' as <-.
  split; [|split; reflexivity].
  apply read_excel_collect_inv in Hcbs, Hcbs'.
  destruct Hcbs as [Hreads ->]. destruct Hcbs' as [Hreads' ->].
  now rewrite !document_keys.
Qed.

Lemma filter_none {A : Type} (p : A -> bool) (l : list A) :
  (forall x, In x l -> p x = false) -> filter p l = [].
Proof.
  intros H. induction l as [|x l IH]; [reflexivity|].
  simpl. rewrite H by now left. apply IH. intros y Hy. apply H. now right.
Qed.

(** X5.  When no requested name is a sheet of the workbook with a range that
    is not inverted, the structured output is the empty object and the text
    output is the empty string. *)
Theorem nothing_requested_exists (out sheets : string) (sparse : bool) :
  (forall name, In name (requested_names wb sheets) -> yields name = false) ->
  read_workbook wb out "j" sheets row_start row_end col_start col_end sparse = Ok "{}"
  /\ read_workbook wb out "t" sheets row_start row_end col_start col_end sparse = Ok "".
Proof.
  intros Hnone.
  assert (Hreads : rounds_return wb row_start row_end col_start col_end sparse
                     (requested_names wb sheets)).
  { intros name Hin. exists None. apply skipped_round. now apply Hnone. }
  unfold read_workbook. fold (requested_names wb sheets).
  rewrite (read_excel_collect_ok wb _ _ _ _ sparse _ Hreads). cbn [bind].
  assert (Hdoc : read_excel_json (requested_names wb sheets)
                   (set_each (collected wb row_start row_end col_start col_end sparse)
                             (requested_names wb sheets) [])
                   (_parse_out out) [] = []).
  { pose proof (document_keys wb row_start row_end col_start col_end sparse
                  (_parse_out out) (requested_names wb sheets) Hreads) as Hkeys.
    rewrite (filter_none _ _ Hnone) in Hkeys.
    destruct (read_excel_json _ _ _ _); [reflexivity|discriminate]. }
  split.
  - cbn. rewrite Hdoc. reflexivity.
  - cbn.
    destruct (read_excel_text_ok (_parse_out out)
                (set_each (collected wb row_start row_end col_start col_end sparse)
                          (requested_names wb sheets) [])
                (requested_names wb sheets)) with (lines := @nil string)
      as [lines Hlines].
    { intros n cells cell Hn Hget. rewrite (stored_lookup wb _ _ _ _ sparse _ n Hn) in Hget.
      rewrite (stored_cells wb _ _ _ _ sparse _ n Hreads Hn), (Hnone n Hn) in Hget.
      discriminate. }
    rewrite Hlines. cbn [bind].
    apply lines_blocks in Hlines; [|exact Hreads]. destruct Hlines as [-> _].
    rewrite (filter_none _ _ Hnone). reflexivity.
Qed.

End Output.

Lemma text_round_trip_witness :
  exists lines : list string,
    read_workbook Sample.book "vb" "t" "Sheet1" 0 0 0 0 true
    = Ok (join (String LF "") lines)
    /\ split LF (join (String LF "") lines) = lines.
Proof.
  destruct (read_workbook Sample.book "vb" "t" "Sheet1" 0 0 0 0 true)
    as [text|e] eqn:Hcall; [|vm_compute in Hcall; discriminate Hcall].
  destruct (text_round_trip Sample.book 0 0 0 0 "vb" "t" "Sheet1" true text)
    as [lines [-> [Hlines [_ Hsplit]]]].
  - reflexivity.
  - reflexivity.
  - exact Hcall.
  - exists lines. split; [reflexivity|]. apply Hsplit.
    intros ->. vm_compute in Hlines. discriminate.
Defined.

Lemma output_is_never_the_error_message_witness :
  exists rest : string,
    read_workbook Sample.book "vb" "j" "Blank" 0 0 0 0 true = Ok (String "{" rest).
Proof.
  destruct (read_workbook Sample.book "vb" "j" "Blank" 0 0 0 0 true)
    as [text|e] eqn:Hcall; [|vm_compute in Hcall; discriminate Hcall].
  destruct (output_is_never_the_error_message Sample.book 0 0 0 0 "vb" "j" "Blank"
              true text Hcall) as [[->|[rest [->| ->]]] _].
  - vm_compute in Hcall. discriminate Hcall.
  - now exists rest.
  - vm_compute in Hcall. discriminate Hcall.
Defined.

Lemma sheets_do_not_depend_on_fields_witness :
  exists doc doc' : dict json,
    read_workbook Sample.book "v" "j" "Mixed,Blank" 0 0 0 0 true = dumps (JObj doc)
    /\ read_workbook Sample.book "bz" "j" "Mixed,Blank" 0 0 0 0 false = dumps (JObj doc')
    /\ keys doc = keys doc'.
Proof.
  destruct (structured_document Sample.book "v" "Mixed,Blank" 0 0 0 0 true)
    as [doc|e] eqn:Hdoc; [|vm_compute in Hdoc; discriminate Hdoc].
  destruct (structured_document Sample.book "bz" "Mixed,Blank" 0 0 0 0 false)
    as [doc'|e] eqn:Hdoc'; [|vm_compute in Hdoc'; discriminate Hdoc'].
  destruct (sheets_do_not_depend_on_fields Sample.book 0 0 0 0 "v" "bz" "Mixed,Blank"
              true false doc doc' Hdoc Hdoc') as [Hkeys [Hcall Hcall']].
  exists doc, doc'. repeat split; assumption.
Defined.

Lemma nothing_requested_exists_witness :
  read_workbook Sample.book "vb" "j" "Nope, Other" 0 0 0 0 true = Ok "{}"
  /\ read_workbook Sample.book "vb" "t" "Nope, Other" 0 0 0 0 true = Ok "".
Proof.
  apply (nothing_requested_exists Sample.book 0 0 0 0 "vb" "Nope, Other" true).
  intros name [<-|[<-|[]]]; reflexivity.
Defined.

(* ================================================================== *)
(** ** Field letters, ranges and blank cells *)
(* ================================================================== *)

Section Inputs.

Lemma append_empty (a b : string) : (a ++ b)%string = "" -> a = "" /\ b = "".
Proof. destruct a; simpl; [intros ->; now split|discriminate]. Qed.

Lemma fields_eq (v b n z c g f v' b' n' z' c' g' f' : bool) :
  v = v' -> b = b' -> n = n' -> z = z' -> c = c' -> g = g' -> f = f' ->
  {| fv := v; fb := b; fn := n; fz := z; fc := c; fg := g; ff := f |}
  = {| fv := v'; fb := b'; fn := n'; fz := z'; fc := c'; fg := g'; ff := f' |}.
Proof. now intros -> -> -> -> -> -> ->. Qed.

(** X6.  The selected fields depend on the letters of [out] as a set:
    writing the letters in another order, or twice, selects the same
    fields. *)
Theorem out_is_a_set_of_letters (a b : string) :
  _parse_out (a ++ b) = _parse_out (b ++ a)
  /\ _parse_out (a ++ a) = _parse_out a.
Proof.
  split.
  - destruct (String.eqb_spec (a ++ b) "") as [E|Hab].
    + apply append_empty in E. destruct E as [-> ->]. reflexivity.
    + assert (Hba : (b ++ a)%string <> "").
      { intros E. apply append_empty in E. destruct E as [-> ->]. now apply Hab. }
      rewrite (parse_out_letters _ Hab), (parse_out_letters _ Hba), !contains_app.
      apply fields_eq;
        repeat match goal with |- context [contains ?c ?s] =>
                 destruct (contains c s) end; reflexivity.
  - destruct (String.eqb_spec a "") as [->|Ha]; [reflexivity|].
    assert (Haa : (a ++ a)%string <> "").
    { intros E. apply append_empty in E. now destruct E. }
    rewrite (parse_out_letters _ Ha), (parse_out_letters _ Haa), !contains_app.
    apply fields_eq;
      repeat match goal with |- context [contains ?c ?s] =>
               destruct (contains c s) end; reflexivity.
Qed.

(** X7.  Resolving a range and passing the four resolved bounds back as
    overrides resolves to the same range. *)
Theorem resolved_bounds_are_stable (ws : Xl.Worksheet)
    (row_start row_end col_start col_end r1 r2 c1 c2 : Z) :
  _sheet_range ws row_start row_end col_start col_end = (r1, r2, c1, c2) ->
  _sheet_range ws r1 r2 c1 c2 = (r1, r2, c1, c2).
Proof.
  intros H. destruct (_sheet_range_ge_1 _ _ _ _ _ _ _ _ _ H) as [H1 [H2 [H3 H4]]].
  unfold _sheet_range.
  destruct (Z.gtb_spec r1 0); [|lia]. destruct (Z.gtb_spec r2 0); [|lia].
  destruct (Z.gtb_spec c1 0); [|lia]. destruct (Z.gtb_spec c2 0); [|lia].
  reflexivity.
Qed.

Lemma resolved_bounds_are_stable_witness :
  _sheet_range Sample.mixed 1 2 2 3 = (1, 2, 2, 3).
Proof.
  apply (resolved_bounds_are_stable Sample.mixed 0 (-4) 2 0 1 2 2 3). reflexivity.
Defined.

Lemma range_empty (lo hi : Z) : hi <= lo -> range lo hi = [].
Proof.
  intros H. unfold range. replace (Z.to_nat (hi - lo)) with 0%nat by lia. reflexivity.
Qed.

Lemma _collect_cells_rows_no_cols (ws : Xl.Worksheet) (sparse : bool) (rows : list Z) :
  forall cells, _collect_cells_rows ws rows [] sparse cells = Ok cells.
Proof. induction rows as [|r rows IH]; intros cells; [reflexivity|apply IH]. Qed.

(** X8.  On an inverted range [_collect_cells] returns the empty list and
    does not touch the sheet, whatever the bounds are; the absence of such
    a sheet from the output is the work of the guard in [read_excel]. *)
Theorem inverted_range_collects_nothing (ws : Xl.Worksheet) (r1 r2 c1 c2 : Z)
    (sparse : bool) :
  r2 < r1 \/ c2 < c1 ->
  _collect_cells ws r1 r2 c1 c2 sparse = Ok [].
Proof.
  intros [H|H]; unfold _collect_cells.
  - rewrite (range_empty r1 (r2 + 1)) by lia. reflexivity.
  - rewrite (range_empty c1 (c2 + 1)) by lia. apply _collect_cells_rows_no_cols.
Qed.

Lemma inverted_range_collects_nothing_witness :
  _collect_cells Sample.mixed (-3) 7 5 2 false = Ok [].
Proof.
  apply (inverted_range_collects_nothing Sample.mixed (-3) 7 5 2 false). right. lia.
Defined.

(** X9.  A cell extracted as a formula holds a string that starts with
    [=]; its value is that string, and the cell is not blank, so sparse
    extraction never drops a formula. *)
Theorem formulas_are_never_blank (r c : Z) (cell : Xl.Cell) (fill : ColorVal) :
  is_formula (make_cell r c cell fill) = true ->
  exists rest : string,
    Xl.value cell = PyStr (String "=" rest)
    /\ value (make_cell r c cell fill) = String "=" rest
    /\ _is_blank (Xl.value cell) = false
    /\ forall (ws : Xl.Worksheet) (sparse : bool),
         Xl.grid ws r c = cell -> emitted ws sparse (r, c) = true.
Proof.
  unfold make_cell, _cell_value_str. cbn [is_formula value].
  destruct (Xl.value cell) as [|s| | |] eqn:Hv; try discriminate.
  destruct s as [|ch rest]; [discriminate|].
  cbn [startswith]. intros H. apply Ascii.eqb_eq in H. subst ch.
  exists rest. split; [reflexivity|]. split; [reflexivity|].
  assert (Hnb : non_blank (PyStr (String "=" rest)) = true) by reflexivity.
  split.
  - rewrite _is_blank_non_blank, Hnb. reflexivity.
  - intros ws sparse Hgrid. unfold emitted. cbn [fst snd]. rewrite Hgrid, Hv, Hnb.
    apply orb_true_r.
Qed.

Lemma formulas_are_never_blank_witness :
  exists rest : string, Xl.value (Xl.grid Sample.mixed 2 2) = PyStr (String "=" rest).
Proof.
  destruct (formulas_are_never_blank 2 2 (Xl.grid Sample.mixed 2 2) (ColorStr ""))
    as [rest [H _]].
  - reflexivity.
  - exists rest. exact H.
Defined.

Lemma length_filter_le {A : Type} (p : A -> bool) (l : list A) :
  (length (filter p l) <= length l)%nat.
Proof.
  induction l as [|x l IH]; [apply le_n|].
  simpl. destruct (p x); simpl; lia.
Qed.

(** X10.  On a range within the sheet, when dense extraction returns,
    sparse extraction returns too, and returns the dense cells without
    those whose raw value is blank: same cells, same order, never more of
    them.  (Sparse extraction can return where dense extraction raises: it
    skips a blank cell before it looks at its fill.) *)
Theorem sparse_is_dense_without_blanks (ws : Xl.Worksheet) (r1 r2 c1 c2 : Z)
    (dense : list (_CellDataOf ColorVal)) :
  1 <= r1 -> 1 <= c1 ->
  _collect_cells ws r1 r2 c1 c2 false = Ok dense ->
  _collect_cells ws r1 r2 c1 c2 true
  = Ok (filter (fun cell => negb (_is_blank (raw_value ws (coord cell)))) dense)
  /\ (length (filter (fun cell => negb (_is_blank (raw_value ws (coord cell)))) dense)
      <= length dense)%nat.
Proof.
  intros Hr Hc Hdense. split; [|apply length_filter_le].
  rewrite (_collect_cells_eq ws r1 r2 c1 c2 false Hr Hc) in Hdense.
  rewrite (_collect_cells_eq ws r1 r2 c1 c2 true Hr Hc).
  rewrite (filter_all (emitted ws false)) in Hdense by reflexivity.
  apply map_result_filter; [|exact Hdense].
  intros [r c] cell. unfold cell_at. cbn [fst snd].
  destruct (_fill_color (Xl.grid ws r c)) as [fill|e]; cbn [bind]; [|discriminate].
  intros H. injection H as <-.
  unfold emitted, coord, make_cell, raw_value. cbn [row col fst snd negb orb].
  now rewrite _is_blank_non_blank, negb_involutive.
Qed.

End Inputs.

Lemma sparse_is_dense_without_blanks_witness :
  exists dense : list (_CellDataOf ColorVal),
    _collect_cells Sample.mixed 1 2 1 3 false = Ok dense
    /\ length dense = 6%nat
    /\ _collect_cells Sample.mixed 1 2 1 3 true
       = Ok (filter (fun cell => negb (_is_blank (raw_value Sample.mixed (coord cell))))
                    dense).
Proof.
  destruct (_collect_cells Sample.mixed 1 2 1 3 false) as [dense|e] eqn:Hdense;
    [|vm_compute in Hdense; discriminate Hdense].
  exists dense. split; [reflexivity|]. split.
  - vm_compute in Hdense. now injection Hdense as <-.
  - apply (sparse_is_dense_without_blanks Sample.mixed 1 2 1 3 dense); [lia|lia|].
    exact Hdense.
Defined.

(** Sparse extraction returns where dense extraction raises: the blank
    cell with the gradient fill is skipped before its fill is read. *)
Example sparse_skips_a_blank_gradient_cell :
  _collect_cells Sample.shaded 1 1 1 2 false = Raise (AttributeError "fgColor")
  /\ map coord (match _collect_cells Sample.shaded 1 1 1 2 true with
                | Ok cells => cells
                | Raise _ => []
                end) = [(1, 1)].
Proof. split; vm_compute; reflexivity. Qed.

(* ================================================================== *)
(** ** Sheet names *)
(* ================================================================== *)

Section SheetNames.

Lemma contains_lstrip (c : ascii) (s : string) :
  contains c s = false -> contains c (lstrip s) = false.
Proof.
  induction s as [|x s IH]; [reflexivity|].
  intros H. simpl. destruct (isspace x); [|exact H].
  simpl in H. apply orb_false_iff in H. now apply IH.
Qed.

Lemma contains_rstrip (c : ascii) (s : string) :
  contains c s = false -> contains c (rstrip s) = false.
Proof.
  induction s as [|x s IH]; [reflexivity|].
  simpl. intros H. apply orb_false_iff in H. destruct H as [Hx Hs].
  specialize (IH Hs). destruct (rstrip s) as [|y r].
  - destruct (isspace x); [reflexivity|]. simpl. now rewrite Hx.
  - cbn [contains]. rewrite Hx. exact IH.
Qed.

Lemma rstrip_idem (s : string) : rstrip (rstrip s) = rstrip s.
Proof.
  induction s as [|x s IH]; [reflexivity|].
  simpl. destruct (rstrip s) as [|y r] eqn:E.
  - destruct (isspace x) eqn:Hx; [reflexivity|]. simpl. now rewrite Hx.
  - cbn [rstrip]. cbn [rstrip] in IH. rewrite IH. reflexivity.
Qed.

Lemma rstrip_head (c : ascii) (s : string) :
  isspace c = false -> exists t, rstrip (String c s) = String c t.
Proof.
  intros Hc. simpl. rewrite Hc. destruct (rstrip s); eauto.
Qed.

(** Trimming twice is trimming once. *)
Lemma strip_idem (s : string) : strip (strip s) = strip s.
Proof.
  unfold strip. destruct (lstrip_cases s) as [[_ ->] | [_ [c [s' [-> Hc]]]]];
    [reflexivity|].
  destruct (rstrip_head c s' Hc) as [t Ht]. rewrite Ht.
  cbn [lstrip]. rewrite Hc, <- Ht. apply rstrip_idem.
Qed.

Lemma split_pieces_clean (sep : ascii) (s p : string) :
  In p (split sep s) -> contains sep p = false.
Proof.
  revert p. induction s as [|c s IH]; intros p.
  - intros [<-|[]]. reflexivity.
  - simpl. destruct (Ascii.eqb c sep) eqn:Hc.
    + intros [<-|H]; [reflexivity|now apply IH].
    + destruct (split sep s) as [|piece pieces].
      * intros [<-|[]]. simpl. now rewrite Hc.
      * intros [<-|H].
        -- simpl. rewrite Hc. apply IH. now left.
        -- apply IH. now right.
Qed.

(** X11.  Every name taken from the [sheets] argument is non-empty, has no
    whitespace at either end and holds no comma; a sheet whose title has a
    comma or surrounding whitespace cannot be asked for by name. *)
Theorem requested_names_are_trimmed (sheets name : string) :
  In name (parse_sheets sheets) ->
  name <> "" /\ strip name = name /\ contains "," name = false.
Proof.
  unfold parse_sheets. intros H. apply in_flat_map in H. destruct H as [s [Hs Hin]].
  destruct (String.eqb_spec (strip s) "") as [|Hne]; [contradiction|].
  destruct Hin as [<-|[]]. split; [exact Hne|]. split; [apply strip_idem|].
  unfold strip. apply contains_rstrip, contains_lstrip.
  now apply (split_pieces_clean _ sheets).
Qed.

Lemma requested_names_are_trimmed_witness :
  strip "Q1 totals" = "Q1 totals" /\ contains "," "Q1 totals" = false.
Proof.
  refine (proj2 (requested_names_are_trimmed " Mixed ,, Q1 totals " "Q1 totals" _)).
  vm_compute. tauto.
Defined.

Lemma filter_all_in {A : Type} (p : A -> bool) (l : list A) :
  (forall x, In x l -> p x = true) -> filter p l = l.
Proof.
  intros H. induction l as [|x l IH]; [reflexivity|].
  simpl. rewrite H by now left. f_equal. apply IH. intros y Hy. apply H. now right.
Qed.

Lemma add_names_fresh (l seen : list string) :
  NoDup (seen ++ l) -> fold_left add_name l seen = seen ++ l.
Proof.
  revert seen. induction l as [|n l IH]; intros seen Hnd; simpl.
  - now rewrite app_nil_r.
  - assert (Hn : existsb (String.eqb n) seen = false).
    { destruct (existsb (String.eqb n) seen) eqn:E; [|reflexivity].
      apply existsb_eqb_In in E. apply NoDup_remove_2 in Hnd.
      exfalso. apply Hnd. apply in_or_app. now left. }
    unfold add_name at 2. rewrite Hn. rewrite IH; rewrite <- app_assoc; [reflexivity|].
    exact Hnd.
Qed.

(** X12.  When [sheets] names nothing (it is empty, or only commas and
    whitespace), the workbook's own sheet list is used: if the titles are
    distinct and every sheet has a range that is not inverted, the
    structured document a call serializes has one entry per sheet, in the
    workbook's order. *)
Theorem no_names_means_every_sheet (wb : Xl.Workbook) (out fmt sheets : string)
    (row_start row_end col_start col_end : Z) (sparse : bool) (text : string) :
  parse_sheets sheets = [] ->
  NoDup (Xl.sheetnames wb) ->
  (forall name, In name (Xl.sheetnames wb) ->
                contributes wb row_start row_end col_start col_end name = true) ->
  starts_with_j fmt = true ->
  read_workbook wb out fmt sheets row_start row_end col_start col_end sparse = Ok text ->
  exists doc : dict json,
    dumps (JObj doc) = Ok text
    /\ structured_document wb out sheets row_start row_end col_start col_end sparse
       = Ok doc
    /\ keys doc = Xl.sheetnames wb.
Proof.
  intros Hparse Hnd Hall Hfmt Hcall.
  destruct (read_workbook_inv wb out sheets row_start row_end col_start col_end sparse
              fmt text Hcall) as [Hreads [Hdoc [[_ Hdumps]|[Hj _]]]]; [|congruence].
  eexists. split; [exact Hdumps|]. split; [exact Hdoc|].
  rewrite document_keys by exact Hreads.
  unfold requested_names. rewrite Hparse. cbn [sheet_names_or].
  rewrite filter_all_in by exact Hall.
  unfold first_occurrences. now rewrite add_names_fresh.
Qed.

End SheetNames.

Lemma no_names_means_every_sheet_witness :
  exists doc : dict json,
    read_workbook Sample.book "v" "j" " , " 0 0 0 0 true = dumps (JObj doc)
    /\ keys doc = ["Sheet1"; "Mixed"; "Blank"].
Proof.
  destruct (read_workbook Sample.book "v" "j" " , " 0 0 0 0 true)
    as [text|e] eqn:Hcall; [|vm_compute in Hcall; discriminate Hcall].
  destruct (no_names_means_every_sheet Sample.book "v" "j" " , " 0 0 0 0 true text)
    as [doc [Hdumps [_ Hkeys]]].
  - reflexivity.
  - repeat constructor; simpl; intuition discriminate.
  - intros name [<-|[<-|[<-|[]]]]; reflexivity.
  - reflexivity.
  - exact Hcall.
  - exists doc. split; [now rewrite Hdumps|exact Hkeys].
Defined.

(* ================================================================== *)
(** ** Faults, and bounds outside the used range *)
(* ================================================================== *)

Section Faults.


Lemma dict_set_In {V : Type} (k k' : string) (v v' : V) (d : dict V) :
  In (k, v) (dict_set k' v' d) -> v = v' \/ In (k, v) d.
Proof.
  induction d as [|[k0 v0] d IH]; simpl.
  - intros [H|[]]. injection H as _ <-. now left.
  - destruct (k0 =? k')%string; simpl.
    + intros [H|H]; [injection H as _ <-; now left|right; now right].
    + intros [H|H]; [right; now left|].
      destruct (IH H) as [E|E]; [now left|right; now right].
Qed.

Lemma In_if_set {V : Type} (b : bool) (k k' : string) (v v' : V) (d : dict V) :
  In (k, v) (if b then dict_set k' v' d else d) -> (b = true /\ v = v') \/ In (k, v) d.
Proof.
  destruct b; [|now right]. intros H. apply dict_set_In in H.
  destruct H as [H|H]; [left; now split|now right].
Qed.



Lemma dumps_atomic (v : json) : atomic v = true -> exists text, dumps v = Ok text.
Proof. destruct v as [|[]| | | | | |]; simpl; try discriminate; eauto. Qed.









(** X14.  A start row beyond the last used row, with the end row left to
    the sheet, inverts the range: the round for the sheet skips it without
    a fault, and a call that returns has left it out of the structured
    document it serializes and of the text it joins. *)
Theorem start_beyond_used_rows (wb : Xl.Workbook) (name : string) (ws : Xl.Worksheet)
    (out sheets : string) (row_start row_end col_start col_end : Z) (sparse : bool) :
  dict_get name (Xl.worksheets wb) = Some (Xl.Grid ws) ->
  row_end <= 0 ->
  natural (Xl.max_row ws) < row_start ->
  visit wb row_start row_end col_start col_end sparse name = Ok None
  /\ forall fmt text : string,
       read_workbook wb out fmt sheets row_start row_end col_start col_end sparse
       = Ok text ->
       exists (doc : dict json) (lines : list string),
         structured_document wb out sheets row_start row_end col_start col_end sparse
         = Ok doc
         /\ dict_get name doc = None
         /\ (starts_with_j fmt = true -> dumps (JObj doc) = Ok text)
         /\ (starts_with_j fmt = false ->
             text_lines wb out sheets row_start row_end col_start col_end sparse
             = Ok lines
             /\ text = join (String LF "") lines
             /\ ~ In (header name) lines).
Proof.
  intros Hws Hend Hstart.
  assert (Hno : contributes wb row_start row_end col_start col_end name = false).
  { apply yields_false. right. pose proof (natural_ge_1 (Xl.max_row ws)).
    exists ws, row_start, (natural (Xl.max_row ws)),
      (if col_start >? 0 then col_start else natural (Xl.min_column ws)),
      (if col_end >? 0 then col_end else natural (Xl.max_column ws)).
    split; [exact Hws|]. split; [|now left].
    unfold _sheet_range.
    destruct (Z.gtb_spec row_start 0); [|lia]. destruct (Z.gtb_spec row_end 0); [lia|].
    reflexivity. }
  split; [now apply skipped_round|].
  intros fmt text Hcall.
  destruct (read_workbook_inv wb out sheets row_start row_end col_start col_end sparse
              fmt text Hcall) as [Hreads [Hdoc Hcases]].
  assert (Hget : dict_get name
                   (read_excel_json (requested_names wb sheets)
                      (set_each (collected wb row_start row_end col_start col_end sparse)
                                (requested_names wb sheets) [])
                      (_parse_out out) []) = None).
  { rewrite document_get by exact Hreads. rewrite Hno. now rewrite andb_false_r. }
  destruct Hcases as [[Hj Hdumps]|[Hj [lines [Hlines [Htext ->]]]]].
  - eexists. exists []. split; [exact Hdoc|]. split; [exact Hget|].
    split; [intros _; exact Hdumps|congruence].
  - eexists. exists lines. split; [exact Hdoc|]. split; [exact Hget|].
    split; [congruence|]. intros _. split; [exact Hlines|]. split; [reflexivity|].
    apply lines_blocks in Htext; [|exact Hreads]. destruct Htext as [-> _].
    rewrite in_flat_map. intros [n [Hn Hin]].
    apply header_in_block in Hin. subst n. apply filter_In in Hn.
    destruct Hn as [_ Hn]. congruence.
Qed.

End Faults.


Lemma start_beyond_used_rows_witness :
  visit Sample.book 3 0 0 0 false "Mixed" = Ok None
  /\ exists doc : dict json,
       read_workbook Sample.book "v" "j" "Mixed,Sheet1" 3 0 0 0 false = dumps (JObj doc)
       /\ dict_get "Mixed" doc = None.
Proof.
  destruct (start_beyond_used_rows Sample.book "Mixed" Sample.mixed
              "v" "Mixed,Sheet1" 3 0 0 0 false) as [Hround Hcall].
  - reflexivity.
  - lia.
  - vm_compute. reflexivity.
  - split; [exact Hround|].
    destruct (read_workbook Sample.book "v" "j" "Mixed,Sheet1" 3 0 0 0 false)
      as [text|e] eqn:Htext; [|vm_compute in Htext; discriminate Htext].
    destruct (Hcall "j" text Htext) as [doc [_ [_ [Hget [Hdumps _]]]]].
    exists doc. split; [now rewrite (Hdumps eq_refl)|exact Hget].
Defined.

(* ================================================================== *)
(** ** The command line *)
(* ================================================================== *)

Section CommandLine.

Variable env : Env.

Lemma strip_all_space (s : string) : all_space s = true -> strip s = "".
Proof. intros H. apply String.eqb_eq. now rewrite strip_empty. Qed.

(** X15.  Without a path argument, or with one that is empty or all
    whitespace, [_main] prints the usage text on the error stream and exits
    with status 1, whatever the other arguments and the files are; it
    prints nothing on the standard output and raises nothing. *)
Theorem main_without_a_path (prog path : string) (rest : list string) :
  all_space path = true ->
  _main env [] = Ok (Exited (USAGE ++ String LF "") 1)
  /\ _main env [prog] = Ok (Exited (USAGE ++ String LF "") 1)
  /\ _main env (prog :: path :: rest) = Ok (Exited (USAGE ++ String LF "") 1).
Proof.
  intros Hblank. split; [reflexivity|]. split; [reflexivity|].
  unfold _main, argv_or. cbn [length Nat.ltb Nat.leb nth].
  now rewrite (strip_all_space path Hblank).
Qed.

(** X16.  [_main] reads its first three arguments trimmed and nothing
    else: arguments after [fmt] (a sheet list, a range, a sparse flag) are
    ignored, and so is the program name. *)
Theorem main_reads_three_arguments (prog prog' path out fmt : string)
    (more : list string) :
  _main env (prog :: path :: out :: fmt :: more)
  = _main env [prog'; strip path; strip out; strip fmt].
Proof.
  unfold _main, argv_or. cbn [length Nat.ltb Nat.leb nth].
  now rewrite !strip_idem.
Qed.

(** X17.  On the command line an [out] or [fmt] argument that is empty or
    all whitespace stands for the default, as if it had been left out. *)
Theorem main_blank_options (prog path out fmt : string) :
  all_space out = true -> all_space fmt = true ->
  _main env [prog; path; out; fmt] = _main env [prog; path].
Proof.
  intros Hout Hfmt. unfold _main, argv_or. cbn [length Nat.ltb Nat.leb nth].
  rewrite (strip_all_space out Hout), (strip_all_space fmt Hfmt).
  destruct ((strip path =? "")%string || negb (path_exists env (strip path)));
    [reflexivity|].
  unfold Read.read_excel. destruct (load_workbook env (strip path)); reflexivity.
Qed.

End CommandLine.

Lemma main_without_a_path_witness :
  _main Sample.env ["read.py"; "  "; "v"; "t"] = Ok (Exited (USAGE ++ String LF "") 1).
Proof.
  refine (proj2 (proj2 (main_without_a_path Sample.env "read.py" "  " ["v"; "t"] _))).
  reflexivity.
Defined.

Lemma main_blank_options_witness :
  _main Sample.env ["read.py"; "/data/book.xlsx"; " "; ""]
  = _main Sample.env ["read.py"; "/data/book.xlsx"].
Proof.
  apply (main_blank_options Sample.env "read.py" "/data/book.xlsx" " " ""); reflexivity.
Defined.

(* ================================================================== *)
(** ** More on escaping and on extracted coordinates *)
(* ================================================================== *)

Section Plain.

Lemma esc_chars_app (a b : string) :
  esc_chars (a ++ b) = (esc_chars a ++ esc_chars b)%string.
Proof.
  induction a as [|c a IH]; [reflexivity|].
  simpl. now rewrite IH, append_assoc.
Qed.

Lemma length_append (a b : string) :
  String.length (a ++ b) = (String.length a + String.length b)%nat.
Proof. induction a as [|c a IH]; simpl; [reflexivity|now rewrite IH]. Qed.

Lemma esc_char_length (c : ascii) : (1 <= String.length (esc_char c))%nat.
Proof.
  unfold esc_char.
  destruct (Ascii.eqb c BACKSLASH); [simpl; lia|].
  destruct (Ascii.eqb c TAB); [simpl; lia|].
  destruct (Ascii.eqb c CR); [simpl; lia|].
  destruct (Ascii.eqb c LF); simpl; lia.
Qed.

Lemma esc_chars_length (s : string) :
  (String.length s <= String.length (esc_chars s))%nat.
Proof.
  induction s as [|c s IH]; [apply le_n|].
  simpl. rewrite length_append. pose proof (esc_char_length c). lia.
Qed.

Lemma esc_chars_plain (s : string) :
  contains BACKSLASH s = false -> contains TAB s = false ->
  contains CR s = false -> contains LF s = false ->
  esc_chars s = s.
Proof.
  induction s as [|c s IH]; [reflexivity|].
  simpl. intros Hb Ht Hr Hn.
  apply orb_false_iff in Hb, Ht, Hr, Hn.
  destruct Hb as [Hb Hb'], Ht as [Ht Ht'], Hr as [Hr Hr'], Hn as [Hn Hn'].
  unfold esc_char. rewrite Hb, Ht, Hr, Hn. simpl. now rewrite IH.
Qed.

Lemma esc_chars_fixed (s : string) :
  esc_chars s = s ->
  contains BACKSLASH s = false /\ contains TAB s = false
  /\ contains CR s = false /\ contains LF s = false.
Proof.
  induction s as [|c s IH]; [now repeat split|].
  simpl. unfold esc_char.
  destruct (Ascii.eqb_spec c BACKSLASH) as [->|Hb].
  { intros H. injection H as H. pose proof (esc_chars_length s) as Hlen.
    rewrite <- H in Hlen at 1. simpl in Hlen. lia. }
  destruct (Ascii.eqb_spec c TAB) as [->|Ht]; [discriminate|].
  destruct (Ascii.eqb_spec c CR) as [->|Hr]; [discriminate|].
  destruct (Ascii.eqb_spec c LF) as [->|Hn]; [discriminate|].
  simpl. intros H. injection H as H. destruct (IH H) as [H1 [H2 [H3 H4]]].
  now rewrite H1, H2, H3, H4.
Qed.

Lemma no_backslash_written (s : string) :
  contains BACKSLASH (esc_chars s) = false -> esc_chars s = s.
Proof.
  induction s as [|c s IH]; [reflexivity|].
  simpl. rewrite contains_app. intros H. apply orb_false_iff in H.
  destruct H as [Hc Hs]. unfold esc_char in *.
  destruct (Ascii.eqb c BACKSLASH); [discriminate Hc|].
  destruct (Ascii.eqb c TAB); [discriminate Hc|].
  destruct (Ascii.eqb c CR); [discriminate Hc|].
  destruct (Ascii.eqb c LF); [discriminate Hc|].
  simpl. now rewrite (IH Hs).
Qed.

(** X19.  [_esc] works character by character, so it commutes with
    concatenation and never shortens a string; it leaves a string as it is
    exactly when the string has no backslash, tab, carriage return or line
    feed, and so escaping an escaped string changes it again whenever the
    first escaping did. *)
Theorem plain_text_is_unchanged (s t : string) :
  _esc (s ++ t) = (_esc s ++ _esc t)%string
  /\ (String.length s <= String.length (_esc s))%nat
  /\ (_esc s = s
      <-> contains BACKSLASH s = false /\ contains TAB s = false
          /\ contains CR s = false /\ contains LF s = false)
  /\ (_esc (_esc s) = _esc s <-> _esc s = s).
Proof.
  rewrite !_esc_chars. split; [apply esc_chars_app|].
  split; [apply esc_chars_length|]. split.
  - split; [apply esc_chars_fixed|].
    intros [Hb [Ht [Hr Hn]]]. now apply esc_chars_plain.
  - split.
    + intros H. apply esc_chars_fixed in H. destruct H as [Hb _].
      now apply no_backslash_written.
    + intros H. now rewrite !H.
Qed.

Lemma sorted_NoDup (l : list (Z * Z)) : StronglySorted row_major l -> NoDup l.
Proof.
  induction 1 as [|p l Hl IH Hall]; constructor; [|exact IH].
  intros Hin. rewrite Forall_forall in Hall. specialize (Hall p Hin).
  unfold row_major in Hall. lia.
Qed.

(** X20.  When extraction returns, it has emitted no coordinate twice,
    and every record lies in the range and holds what the sheet's cell at
    its coordinate holds: the value as text, whether it is a formula, the
    boldness, name and size of the font, and the two colours as
    [_font_color] and [_fill_color] return them. *)
Theorem coordinates_are_distinct (ws : Xl.Worksheet) (r1 r2 c1 c2 : Z) (sparse : bool)
    (cells : list (_CellDataOf ColorVal)) :
  1 <= r1 -> 1 <= c1 ->
  _collect_cells ws r1 r2 c1 c2 sparse = Ok cells ->
  NoDup (map coord cells)
  /\ forall cell : _CellDataOf ColorVal,
       In cell cells ->
       (r1 <= row cell <= r2 /\ c1 <= col cell <= c2)
       /\ emitted ws sparse (row cell, col cell) = true
       /\ value cell = _cell_value_str (Xl.grid ws (row cell) (col cell))
       /\ is_formula cell
          = match Xl.value (Xl.grid ws (row cell) (col cell)) with
            | PyStr s => startswith "=" s
            | _ => false
            end
       /\ bold cell
          = match Xl.font (Xl.grid ws (row cell) (col cell)) with
            | Some fnt => Xl.bold fnt
            | None => false
            end
       /\ font_name cell
          = match Xl.font (Xl.grid ws (row cell) (col cell)) with
            | Some fnt => Xl.name fnt
            | None => Some ""
            end
       /\ font_size cell
          = match Xl.font (Xl.grid ws (row cell) (col cell)) with
            | Some fnt => Xl.size fnt
            | None => PyNone
            end
       /\ font_color cell = _font_color (Xl.grid ws (row cell) (col cell))
       /\ _fill_color (Xl.grid ws (row cell) (col cell)) = Ok (fill_color cell).
Proof.
  intros Hr Hc Hcells.
  apply _collect_cells_inv in Hcells; [|exact Hr|exact Hc].
  destruct Hcells as [-> Hplain]. split.
  - rewrite coord_record_at. apply sorted_NoDup, sorted_filter, coords_sorted.
  - intros cell Hin. apply in_map_iff in Hin. destruct Hin as [[r c] [<- Hrc]].
    apply filter_In in Hrc. destruct Hrc as [Hrc Hem].
    specialize (Hplain (r, c) Hrc Hem). apply in_coords in Hrc.
    unfold record_at, make_cell.
    cbn [row col value is_formula bold font_name font_size font_color fill_color
         fst snd] in *.
    split; [exact Hrc|]. split; [exact Hem|]. repeat (split; [reflexivity|]).
    unfold fill_value, gradient, _fill_color in *.
    destruct (Xl.fill (Xl.grid ws r c)) as [[[clr|]|]|]; try discriminate; reflexivity.
Qed.

Lemma coordinates_are_distinct_witness :
  exists cells : list (_CellDataOf ColorVal),
    _collect_cells Sample.people 1 2 1 2 true = Ok cells
    /\ NoDup (map coord cells).
Proof.
  destruct (_collect_cells Sample.people 1 2 1 2 true) as [cells|e] eqn:Hcells;
    [|vm_compute in Hcells; discriminate Hcells].
  exists cells. split; [reflexivity|].
  apply (coordinates_are_distinct Sample.people 1 2 1 2 true cells); [lia|lia|].
  exact Hcells.
Defined.

End Plain.

(* ================================================================== *)
(** ** The values met at run time *)
(* ================================================================== *)

Section RunTime.

Lemma cell_json_values (cell : _CellDataOf ColorVal) (fields : Fields)
    (k : string) (v : json) :
  In (k, v) (Dyn._cell_to_json cell fields) -> atomic v = true \/ v = JOpaque "RGB".
Proof.
  unfold Dyn._cell_to_json. cbv zeta. intros Hin.
  apply In_if_set in Hin. destruct Hin as [[_ ->]|Hin].
  { destruct (fill_color cell); [now left|now right]. }
  apply In_if_set in Hin. destruct Hin as [[_ ->]|Hin].
  { destruct (font_color cell); [now left|now right]. }
  left.
  apply In_if_set in Hin. destruct Hin as [[_ ->]|Hin].
  { now destruct (font_size cell). }
  apply In_if_set in Hin. destruct Hin as [[_ ->]|Hin]; [reflexivity|].
  apply In_if_set in Hin. destruct Hin as [[_ ->]|Hin]; [reflexivity|].
  apply In_if_set in Hin. destruct Hin as [[_ ->]|Hin]; [reflexivity|].
  apply In_if_set in Hin. destruct Hin as [[_ ->]|Hin]; [reflexivity|].
  destruct Hin as [H|[H|[]]]; injection H as _ <-; reflexivity.
Qed.

Lemma cell_json_opaque (cell : _CellDataOf ColorVal) (fields : Fields) :
  printable fields cell = false ->
  exists k : string, In (k, JOpaque "RGB") (Dyn._cell_to_json cell fields).
Proof.
  destruct cell as [r c v isf b fnm fsz fcl fil].
  unfold printable, Dyn._cell_to_json.
  cbn [row col value is_formula bold font_name font_size font_color fill_color].
  destruct fields as [[] [] [] [] [] [] []]; cbn [fv fb fn fz fc fg ff];
    destruct fcl, fil; cbn [negb orb andb is_str]; intros Hprint;
    try discriminate Hprint; destruct isf; eexists; cbn;
    repeat first [left; reflexivity | right].
Qed.

(** X22.  On a record whose selected colour fields hold strings, the two
    projections that run inside [read_excel] are the projections of the
    record at its declared type, so what is proved of those holds of every
    cell a call writes.  On a record with a selected colour that is no
    string (a theme or indexed colour), writing the cell line raises
    [AttributeError] and serializing the projection raises [TypeError]. *)
Theorem declared_type_agreement (cell : _CellDataOf ColorVal) (fields : Fields) :
  (printable fields cell = true ->
   Dyn._cell_to_text_parts cell fields = Ok (_cell_to_text_parts (declared cell) fields)
   /\ Dyn._cell_to_json cell fields = _cell_to_json (declared cell) fields
   /\ cell_line cell fields
      = Ok (join (String TAB "") (_cell_to_text_parts (declared cell) fields)))
  /\ (printable fields cell = false ->
      Dyn._cell_to_text_parts cell fields = Raise (AttributeError "replace")
      /\ cell_line cell fields = Raise (AttributeError "replace")
      /\ dumps (JObj (Dyn._cell_to_json cell fields))
         = Raise (TypeError "Object of type RGB is not JSON serializable")).
Proof.
  split; intros Hprint.
  - destruct cell as [r c v isf b fnm fsz fcl fil].
    unfold printable, cell_line, Dyn._cell_to_text_parts, _cell_to_text_parts,
      Dyn._cell_to_json, _cell_to_json, declared in *.
    cbn [row col value is_formula bold font_name font_size font_color fill_color] in *.
    destruct fields as [fv0 fb0 fn0 fz0 [] [] ff0]; cbn [fv fb fn fz fc fg ff] in *;
      destruct fcl, fil; cbn [negb orb andb is_str] in Hprint;
      try discriminate Hprint; repeat split; reflexivity.
  - split; [|split].
    + unfold printable, Dyn._cell_to_text_parts in *.
      destruct (fc fields), (fg fields), (font_color cell), (fill_color cell);
        cbn [negb orb andb is_str] in Hprint; try discriminate Hprint; reflexivity.
    + unfold printable, cell_line, Dyn._cell_to_text_parts in *.
      destruct (fc fields), (fg fields), (font_color cell), (fill_color cell);
        cbn [negb orb andb is_str] in Hprint; try discriminate Hprint; reflexivity.
    + cbn [dumps]. rewrite (map_result_raises _
        (TypeError "Object of type RGB is not JSON serializable")); [reflexivity| |].
      * destruct (cell_json_opaque cell fields Hprint) as [k Hk].
        exists (k, JOpaque "RGB"). split; [exact Hk|reflexivity].
      * intros [k v] e Hin. apply cell_json_values in Hin. cbn [fst snd].
        destruct Hin as [Hv| ->].
        -- destruct (dumps_atomic v Hv) as [text ->]. discriminate.
        -- cbn. intros H. now injection H as <-.
Qed.

(** X23.  A chart sheet among the names a call iterates over stops the
    call whenever one of the four bounds is left to the sheet: it has no
    used range to read. *)
Theorem chart_sheet_is_not_read (wb : Xl.Workbook) (out fmt sheets name : string)
    (row_start row_end col_start col_end : Z) (sparse : bool) :
  In name (requested_names wb sheets) ->
  dict_get name (Xl.worksheets wb) = Some Xl.Chart ->
  row_start <= 0 \/ row_end <= 0 \/ col_start <= 0 \/ col_end <= 0 ->
  exists attribute : string,
    visit wb row_start row_end col_start col_end sparse name
    = Raise (AttributeError attribute)
    /\ forall text : string,
         read_workbook wb out fmt sheets row_start row_end col_start col_end sparse
         <> Ok text.
Proof.
  intros Hin Hchart Hbound.
  assert (Hround : exists attribute,
             visit wb row_start row_end col_start col_end sparse name
             = Raise (AttributeError attribute)).
  { unfold visit. rewrite Hchart. cbn [Dyn._sheet_range].
    destruct (Z.gtb_spec row_start 0); cbn [negb bind]; [|eauto].
    destruct (Z.gtb_spec row_end 0); cbn [negb bind]; [|eauto].
    destruct (Z.gtb_spec col_start 0); cbn [negb bind]; [|eauto].
    destruct (Z.gtb_spec col_end 0); cbn [negb bind]; [lia|eauto]. }
  destruct Hround as [attribute Hround]. exists attribute. split; [exact Hround|].
  intros text Hcall.
  destruct (read_workbook_inv wb out sheets row_start row_end col_start col_end sparse
              fmt text Hcall) as [Hreads _].
  destruct (Hreads name Hin) as [found Hfound]. congruence.
Qed.

End RunTime.

Lemma chart_sheet_is_not_read_witness :
  exists attribute : string,
    visit Sample.styled 0 0 0 0 true "Figures" = Raise (AttributeError attribute).
Proof.
  destruct (chart_sheet_is_not_read Sample.styled "v" "j" "Blank,Figures" "Figures"
              0 0 0 0 true) as [attribute [Hround _]].
  - vm_compute. tauto.
  - reflexivity.
  - left. lia.
  - exists attribute. exact Hround.
Defined.
